(** * Emplode: the AST evaluation engine and the symbol/scope subsystem

    A shallow embedding of [source/Emplode/AST.hpp] and
    [source/Emplode/Symbol_Scope.hpp].  Symbols live in a heap addressed by
    pointers; every member function that reads or writes a Symbol is a
    function over an explicit program state that may fail (a failed
    [emp_assert], a null or dangling dereference). *)

From Stdlib Require Import PrimFloat.
From stdpp Require Import gmap strings list fin_maps sorting.

Set Default Proof Using "Type".
Set Warnings "-register-all".

(** * Pointers, errors and results *)

(** An address of a live or freed [Symbol] object. *)
Definition addr := nat.

(** [emp::Ptr<Symbol>]: [None] is [nullptr]. *)
Definition symbol_ptr_t := option addr.

(** [Ptr::IsNull()]. *)
Definition IsNull (p : symbol_ptr_t) : bool :=
  match p with
  | None => true
  | Some _ => false
  end.

(** [emp::Ptr<EmplodeType>]: a handle on a host object, [None] is [nullptr]. *)
Definition obj_ptr_t := option nat.

(** The ways in which a run stops without a result.  [AssertionFailure] is a
    failed [emp_assert]; [NullDereference] and [DanglingPointer] are the
    undefined behaviours of [->] on a null or a freed pointer;
    [BadFunctionCall] is a call of an empty [std::function]; [OutOfFuel]
    stands for a recursion through the heap that does not come back. *)
Inductive error :=
| AssertionFailure
| NullDereference
| DanglingPointer
| TypeMismatch
| NotCallable
| NotAScope
| BadFunctionCall
| OutOfFuel.

Inductive outcome (A : Type) :=
| Ok (a : A)
| Err (e : error).
Arguments Ok {A} a.
Arguments Err {A} e.

(** The two native types a node of the tree computes with: [double] (IEEE 754
    binary64, the kernel's floats) and [std::string]. *)
Inductive native_t := T_double | T_string.

Definition native (T : native_t) : Type :=
  match T with
  | T_double => float
  | T_string => string
  end.

(** * Symbols *)

(** What a host closure sees of one argument Symbol: its two coercions. *)
Record ArgView := mkArgView {
  arg_double : outcome float;
  arg_string : outcome string
}.

(** What a host closure hands back.  A function may return a function
    (AST.hpp:250, "Technically, one function can return another"). *)
Inductive fun_result :=
| R_double (d : float)
| R_string (s : string)
| R_function (f : list ArgView -> outcome fun_result).

Definition fun_t := list ArgView -> outcome fun_result.

(** The concrete Symbol classes [Symbol_Scope.hpp] names.  [Symbol_Scope] has
    the three data members of Symbol_Scope.hpp:33-37. *)
Inductive SymbolKind :=
| Symbol_DoubleVar (value : float)
| Symbol_StringVar (value : string)
| Symbol_Function (fun_ : fun_t)
| Symbol_Scope (symbol_table : gmap string addr)
               (obj_ptr : obj_ptr_t) (obj_owned : bool).

(** Modelled from the spec: the base class [Symbol] (Symbol.hpp is not among
    the sources): "name (unique within its owning scope), description,
    owning-scope back-reference (non-owning), and boolean capability flags",
    of which the two that are stored, is-temporary and is-builtin, are
    fields; the others follow from the class ([kind]). *)
Record Symbol := mkSymbol {
  name : string;
  desc : string;
  scope : symbol_ptr_t;
  is_temporary : bool;
  is_builtin : bool;
  kind : SymbolKind
}.

Definition SetTemporary (b : bool) (sym : Symbol) : Symbol :=
  mkSymbol (name sym) (desc sym) (scope sym) b (is_builtin sym) (kind sym).

Definition SetBuiltin (sym : Symbol) : Symbol :=
  mkSymbol (name sym) (desc sym) (scope sym) (is_temporary sym) true (kind sym).

Definition set_kind (k : SymbolKind) (sym : Symbol) : Symbol :=
  mkSymbol (name sym) (desc sym) (scope sym) (is_temporary sym)
           (is_builtin sym) k.

(** [IsScope()]: true for [Symbol_Scope] only (Symbol_Scope.hpp:80). *)
Definition IsScope (sym : Symbol) : bool :=
  match kind sym with
  | Symbol_Scope _ _ _ => true
  | _ => false
  end.

(** * The tree *)

(** A handle naming a host closure [std::function<void(node_ptr_t, const
    symbol_vector_t &)>]. *)
Definition setup_fun_t := nat.

(** The node classes of AST.hpp.  A [std::function] member may be empty, so it
    is an [option].  A Leaf is built from a pointer it has dereferenced
    (AST.hpp:91) and a Block from a reference (AST.hpp:129), so neither holds a
    null pointer.  The [parent] link is read by [GetScope] only and is left
    out. *)
Inductive ASTNode :=
| ASTNode_Leaf (symbol_ptr : addr) (own_symbol : bool)
| ASTNode_Block (scope_ptr : addr) (children : list ASTNode)
| ASTNode_Math1 (node_name : string) (fun_ : option (float -> float))
                (children : list ASTNode)
| ASTNode_Op2 (RETURN_T ARG1_T ARG2_T : native_t) (node_name : string)
              (fun_ : option (native ARG1_T -> native ARG2_T -> native RETURN_T))
              (children : list ASTNode)
| ASTNode_Assign (children : list ASTNode)
| ASTNode_Call (children : list ASTNode)
| ASTNode_Event (node_name : string) (setup_event : option setup_fun_t)
                (children : list ASTNode).

(** * Program states *)

(** What a run does to the world outside the heap's contents: allocations
    ([emp::NewPtr]), deallocations ([Ptr::Delete]) and calls of a host setup
    closure with the arguments it received. *)
Inductive event :=
| EvNew (p : addr)
| EvDelete (p : addr)
| EvSetup (f : setup_fun_t) (action : ASTNode) (args : list symbol_ptr_t).

Record state := mkState {
  heap : gmap addr Symbol;
  host_objects : gset nat;
  log : list event
}.

Definition set_heap (h : gmap addr Symbol) (s : state) : state :=
  mkState h (host_objects s) (log s).

Definition add_event (e : event) (s : state) : state :=
  mkState (heap s) (host_objects s) (log s ++ [e]).

(** Code that threads the state and may fail. *)
Definition M (A : Type) : Type := state -> outcome (A * state).

Definition ret {A} (a : A) : M A := fun s => Ok (a, s).

Definition bind {A B} (m : M A) (k : A -> M B) : M B :=
  fun s =>
    match m s with
    | Ok (a, s') => k a s'
    | Err e => Err e
    end.

Definition raise {A} (e : error) : M A := fun _ => Err e.

Definition lift {A} (o : outcome A) : M A :=
  fun s =>
    match o with
    | Ok a => Ok (a, s)
    | Err e => Err e
    end.

Notation "'let*' x ':=' e 'in' k" := (bind e (fun x => k))
  (at level 10, x name, e at level 100, k at level 200).

(** [emp_assert(cond)]. *)
Definition emp_assert (cond : bool) : M unit :=
  if cond then ret tt else raise AssertionFailure.

(** [for (auto x : xs) body(x);] *)
Definition for_each {A} (body : A -> M unit) : list A -> M unit :=
  fix go (xs : list A) : M unit :=
    match xs with
    | [] => ret tt
    | x :: xs' => let* _ := body x in go xs'
    end.

(** [*p] and [p->]: the Symbol a pointer refers to. *)
Definition deref (p : symbol_ptr_t) : M Symbol :=
  fun s =>
    match p with
    | None => Err NullDereference
    | Some a =>
        match heap s !! a with
        | None => Err DanglingPointer
        | Some sym => Ok (sym, s)
        end
    end.

(** Overwrites the object at a live address. *)
Definition store (a : addr) (sym : Symbol) : M unit :=
  fun s => Ok (tt, set_heap (<[a := sym]> (heap s)) s).

(** [emp::NewPtr<T>(...)]: the allocator picks an address that holds no live
    object. *)
Definition fresh_addr (s : state) : addr := fresh (dom (heap s)).

Definition NewPtr (sym : Symbol) : M addr :=
  fun s =>
    let p := fresh_addr s in
    Ok (p, add_event (EvNew p) (set_heap (<[p := sym]> (heap s)) s)).

(** Returns the memory of [p] once its destructor has run. *)
Definition free (p : addr) : M unit :=
  fun s => Ok (tt, add_event (EvDelete p) (set_heap (delete p (heap s)) s)).

(** [obj_ptr.Delete()] on a host object: the handle must be of a live
    object. *)
Definition delete_object (o : obj_ptr_t) : M unit :=
  fun s =>
    match o with
    | None => Err AssertionFailure
    | Some h =>
        if decide (h ∈ host_objects s)
        then Ok (tt, mkState (heap s) (host_objects s ∖ {[h]}) (log s))
        else Err AssertionFailure
    end.

(** * Symbol_Scope *)

(** [emp::map] is [std::map]: a loop over it visits the entries by increasing
    key. *)
Definition entry_le (a b : string * addr) : Prop := String.leb a.1 b.1 = true.

#[global] Instance entry_le_dec : RelDecision entry_le.
Proof. intros a b. unfold entry_le. apply _. Defined.

Definition table_entries (t : gmap string addr) : list (string * addr) :=
  merge_sort entry_le (map_to_list t).

(** [~Symbol_Scope()] (Symbol_Scope.hpp:69-75), over the [Delete] of the
    entries. *)
Definition Symbol_Scope_destructor (Delete_entry : addr -> M unit)
    (symbol_table : gmap string addr) (obj_ptr : obj_ptr_t) (obj_owned : bool)
    : M unit :=
  let* _ := (if obj_owned then delete_object obj_ptr else ret tt) in
  for_each (fun e => Delete_entry e.2) (table_entries symbol_table).

(** [ptr.Delete()] on a Symbol: the virtual destructor, then the memory is
    returned.  The destructor of a scope deletes its entries, which may be
    scopes: [fuel] bounds the depth. *)
Fixpoint Delete_fuel (fuel : nat) (p : addr) : M unit :=
  match fuel with
  | O => raise OutOfFuel
  | S fuel' =>
      let* sym := deref (Some p) in
      let* _ := match kind sym with
                | Symbol_Scope t o own =>
                    Symbol_Scope_destructor (Delete_fuel fuel') t o own
                | _ => ret tt
                end in
      free p
  end.

(** A chain of nested scopes is no longer than the number of live objects. *)
Definition Delete (p : addr) : M unit :=
  fun s => Delete_fuel (S (size (heap s))) p s.

(** [Symbol_Scope(const Symbol_Scope & in) : Symbol(in)]
    (Symbol_Scope.hpp:63-66), run by [emp::NewPtr<Symbol_Scope>] on new
    memory.  Only the base class is copied from [in]: the three data members
    are not in the initialiser list, so they start from their default member
    initialisers (an empty table, [nullptr], [false]).  The loop then runs
    over [symbol_table], the table of the object under construction, at
    [this]. *)
Definition Symbol_Scope_copy (Clone_entry : addr -> M addr) (in_ : Symbol)
    : M addr :=
  let* this := NewPtr (set_kind (Symbol_Scope ∅ None false) in_) in
  let* self := deref (Some this) in
  match kind self with
  | Symbol_Scope symbol_table _ _ =>
      let* _ :=
        for_each
          (fun e =>
             let* q := Clone_entry e.2 in
             let* cur := deref (Some this) in
             match kind cur with
             | Symbol_Scope t o own =>
                 store this (set_kind (Symbol_Scope (<[e.1 := q]> t) o own) cur)
             | _ => raise NotAScope
             end)
          (table_entries symbol_table) in
      ret this
  | _ => raise NotAScope
  end.

(** [Clone()].  For a scope, [emp::NewPtr<Symbol_Scope>( *this )]
    (Symbol_Scope.hpp:224).  Modelled from the spec: [Clone] of the other
    classes (Symbol.hpp, Symbol_Function.hpp and Symbol_Linked.hpp are not
    among the sources), a "deep copy": a new object with the fields of the
    old one.  [fuel] bounds the depth of the scopes cloned inside scopes. *)
Fixpoint Clone_fuel (fuel : nat) (p : addr) : M addr :=
  match fuel with
  | O => raise OutOfFuel
  | S fuel' =>
      let* sym := deref (Some p) in
      match kind sym with
      | Symbol_Scope _ _ _ => Symbol_Scope_copy (Clone_fuel fuel') sym
      | _ => NewPtr sym
      end
  end.

Definition Clone (p : addr) : M addr :=
  fun s => Clone_fuel (S (size (heap s))) p s.

(** [Add<T>(name, args...)] (Symbol_Scope.hpp:39-46) on the scope at [this]:
    [ctor] builds the [T] from the name. *)
Definition Add (this : addr) (nm : string) (ctor : string -> Symbol) : M addr :=
  let* _ := deref (Some this) in
  let* new_ptr := NewPtr (ctor nm) in
  let* self := deref (Some this) in
  match kind self with
  | Symbol_Scope t o own =>
      let* _ := emp_assert (negb (bool_decide (is_Some (t !! nm)))) in
      let* _ := store this (set_kind (Symbol_Scope (<[nm := new_ptr]> t) o own) self) in
      ret new_ptr
  | _ => raise NotAScope
  end.

(** [AddBuiltin<T>(name, args...)] (Symbol_Scope.hpp:48-53). *)
Definition AddBuiltin (this : addr) (nm : string) (ctor : string -> Symbol)
    : M addr :=
  let* result := Add this nm ctor in
  let* sym := deref (Some result) in
  let* _ := store result (SetBuiltin sym) in
  ret result.

(** Modelled from the spec: the constructors of the entry classes (their
    headers are not among the sources); the arguments are those of the calls
    in Symbol_Scope.hpp:145-178: the name, the initial value, the description
    and the owning scope.  A declared entry is neither temporary nor
    builtin. *)
Definition new_Symbol (k : SymbolKind) (d : string) (owner : symbol_ptr_t)
    (nm : string) : Symbol :=
  mkSymbol nm d owner false false k.

(** [Symbol_Scope(_name, _desc, _scope, _obj, _owned)]
    (Symbol_Scope.hpp:56-61). *)
Definition new_Symbol_Scope (nm d : string) (_scope : symbol_ptr_t)
    (_obj : obj_ptr_t) (_owned : bool) : Symbol :=
  new_Symbol (Symbol_Scope ∅ _obj _owned) d _scope nm.

(** [AddStringVar] (Symbol_Scope.hpp:145-147). *)
Definition AddStringVar (this : addr) (nm d : string) : M addr :=
  Add this nm (new_Symbol (Symbol_StringVar "") d (Some this)).

(** [AddValueVar] (Symbol_Scope.hpp:150-152). *)
Definition AddValueVar (this : addr) (nm d : string) : M addr :=
  Add this nm (new_Symbol (Symbol_DoubleVar 0%float) d (Some this)).

(** [AddScope] (Symbol_Scope.hpp:155-162). *)
Definition AddScope (this : addr) (nm d : string) (o : obj_ptr_t) (own : bool)
    : M addr :=
  Add this nm (fun nm' => new_Symbol_Scope nm' d (Some this) o own).

(** [AddFunction] (Symbol_Scope.hpp:165-170). *)
Definition AddFunction (this : addr) (nm : string) (f : fun_t) (d : string)
    : M addr :=
  Add this nm (new_Symbol (Symbol_Function f) d (Some this)).

(** [AddBuiltinFunction] (Symbol_Scope.hpp:173-178). *)
Definition AddBuiltinFunction (this : addr) (nm : string) (f : fun_t)
    (d : string) : M addr :=
  AddBuiltin this nm (new_Symbol (Symbol_Function f) d (Some this)).

(** [GetSymbol] (Symbol_Scope.hpp:87): [emp::Find(symbol_table, name,
    nullptr)]. *)
Definition GetSymbol (this : addr) (nm : string) : M symbol_ptr_t :=
  let* self := deref (Some this) in
  match kind self with
  | Symbol_Scope t _ _ => ret (t !! nm)
  | _ => raise NotAScope
  end.

(** [LookupSymbol(name, scan_scopes)] (Symbol_Scope.hpp:90-102).  The call on
    the parent takes the default [scan_scopes = true].  [fuel] bounds the
    length of the chain of parents.  A pointer of type
    [emp::Ptr<Symbol_Scope>] that does not hold a scope is [NotAScope]. *)
Fixpoint LookupSymbol (fuel : nat) (this : addr) (nm : string)
    (scan_scopes : bool) : M symbol_ptr_t :=
  match fuel with
  | O => raise OutOfFuel
  | S fuel' =>
      let* self := deref (Some this) in
      match kind self with
      | Symbol_Scope symbol_table _ _ =>
          match symbol_table !! nm with
          | None =>
              if IsNull (scope self) || negb scan_scopes then ret None
              else
                match scope self with
                | Some parent => LookupSymbol fuel' parent nm true
                | None => raise NullDereference
                end
          | Some p => ret (Some p)
          end
      | _ => raise NotAScope
      end
  end.

(** * The Symbol contract and the evaluation of the tree *)

(** The conversions between the two native types ([emp::from_string] and
    [emp::to_string] of the Empirical library, which is not part of this
    repository) are parameters of the development. *)
Class Conversions := {
  string_to_double : string -> outcome float;
  double_to_string : float -> outcome string
}.

(** No conversion between a number and a string. *)
Definition strict_conversions : Conversions :=
  {| string_to_double := fun _ => Err TypeMismatch;
     double_to_string := fun _ => Err TypeMismatch |}.

Section Evaluation.
Context `{Conversions}.

(** Modelled from the spec: [AsDouble] and [AsString] (Symbol.hpp is not among
    the sources): "coerce to a native type, fail with TypeMismatch if the
    underlying storage cannot represent it". *)
Definition AsDouble (sym : Symbol) : outcome float :=
  match kind sym with
  | Symbol_DoubleVar v => Ok v
  | Symbol_StringVar v => string_to_double v
  | _ => Err TypeMismatch
  end.

Definition AsString (sym : Symbol) : outcome string :=
  match kind sym with
  | Symbol_DoubleVar v => double_to_string v
  | Symbol_StringVar v => Ok v
  | _ => Err TypeMismatch
  end.

(** [As<T>()] at the two native types. *)
Definition As (T : native_t) (sym : Symbol) : outcome (native T) :=
  match T with
  | T_double => AsDouble sym
  | T_string => AsString sym
  end.

(** Modelled from the spec: [CopyValue(other)] (Symbol.hpp is not among the
    sources): "overwrite this Symbol's value from another's".  The two
    variable classes hold a value; a function or a scope on the left has no
    value to overwrite. *)
Definition CopyValue (this other : Symbol) : outcome Symbol :=
  match kind this with
  | Symbol_DoubleVar _ =>
      match AsDouble other with
      | Ok v => Ok (set_kind (Symbol_DoubleVar v) this)
      | Err e => Err e
      end
  | Symbol_StringVar _ =>
      match AsString other with
      | Ok v => Ok (set_kind (Symbol_StringVar v) this)
      | Err e => Err e
      end
  | _ => Err TypeMismatch
  end.

(** Modelled from the spec: [EmplodeTools::MakeTempSymbol] (EmplodeTools.hpp
    is not among the sources): "wrap the output as a new temporary result".
    A temporary "has no table entry" and "belong[s] to no Scope". *)
Definition temp_Symbol (k : SymbolKind) : Symbol :=
  mkSymbol "" "" None true false k.

Definition native_kind (T : native_t) : native T -> SymbolKind :=
  match T with
  | T_double => Symbol_DoubleVar
  | T_string => Symbol_StringVar
  end.

Definition MakeTempSymbol (T : native_t) (v : native T) : M symbol_ptr_t :=
  let* p := NewPtr (temp_Symbol (native_kind T v)) in
  ret (Some p).

(** Modelled from the spec: [Call(args)] (Symbol_Function.hpp is not among the
    sources): "invoke as a function over an ordered sequence of argument
    Symbols, return a freshly allocated result, fail with NotCallable if not
    a function". *)
Definition arg_view (sym : Symbol) : ArgView :=
  mkArgView (AsDouble sym) (AsString sym).

Fixpoint arg_views (args : list symbol_ptr_t) : M (list ArgView) :=
  match args with
  | [] => ret []
  | a :: args' =>
      let* sym := deref a in
      let* vs := arg_views args' in
      ret (arg_view sym :: vs)
  end.

Definition result_kind (r : fun_result) : SymbolKind :=
  match r with
  | R_double d => Symbol_DoubleVar d
  | R_string s => Symbol_StringVar s
  | R_function f => Symbol_Function f
  end.

Definition Symbol_Call (callee : symbol_ptr_t) (args : list symbol_ptr_t)
    : M symbol_ptr_t :=
  let* sym := deref callee in
  match kind sym with
  | Symbol_Function f =>
      let* vs := arg_views args in
      let* r := lift (f vs) in
      let* p := NewPtr (temp_Symbol (result_kind r)) in
      ret (Some p)
  | _ => raise NotCallable
  end.

(** [if (p->IsTemporary()) p.Delete();] *)
Definition delete_if_temporary (p : symbol_ptr_t) : M unit :=
  let* sym := deref p in
  if is_temporary sym then
    match p with
    | Some a => Delete a
    | None => raise NullDereference
    end
  else ret tt.

(** [ASTNode_Leaf(symbol_ptr_t _ptr)] (AST.hpp:91-93). *)
Definition new_ASTNode_Leaf (_ptr : symbol_ptr_t) : M ASTNode :=
  let* sym := deref _ptr in
  match _ptr with
  | Some a =>
      let own_symbol := is_temporary sym in
      let* _ := store a (SetTemporary false sym) in
      ret (ASTNode_Leaf a own_symbol)
  | None => raise NullDereference
  end.

(** [node.Delete()]: [~ASTNode_Leaf()] (AST.hpp:94) and [~ASTNode_Internal()]
    (AST.hpp:70-72). *)
Fixpoint Delete_node (n : ASTNode) : M unit :=
  match n with
  | ASTNode_Leaf symbol_ptr own_symbol =>
      if own_symbol then Delete symbol_ptr else ret tt
  | ASTNode_Block _ children
  | ASTNode_Math1 _ _ children
  | ASTNode_Op2 _ _ _ _ _ children
  | ASTNode_Assign children
  | ASTNode_Call children
  | ASTNode_Event _ _ children => for_each Delete_node children
  end.

(** The loop of [ASTNode_Block::Process] (AST.hpp:134-137). *)
Definition Process_statements (Process : ASTNode -> M symbol_ptr_t)
    : list ASTNode -> M unit :=
  fix go (children : list ASTNode) : M unit :=
    match children with
    | [] => ret tt
    | node :: rest =>
        let* out := Process node in
        let* _ := match out with
                  | Some _ => delete_if_temporary out
                  | None => ret tt
                  end in
        go rest
    end.

(** The loops of [ASTNode_Call::Process] (AST.hpp:259-261) and of
    [ASTNode_Event::Process] (AST.hpp:296-298): the children from index 1
    on, each result pushed at the back of the vector. *)
Definition Process_arguments (Process : ASTNode -> M symbol_ptr_t)
    : list ASTNode -> M (list symbol_ptr_t) :=
  fix go (children : list ASTNode) : M (list symbol_ptr_t) :=
    match children with
    | [] => ret []
    | node :: rest =>
        let* arg := Process node in
        let* args := go rest in
        ret (arg :: args)
    end.

(** The call of a [std::function] member. *)
Definition bound {A} (f : option A) : M A :=
  match f with
  | Some g => ret g
  | None => raise BadFunctionCall
  end.

(** The host setup closure is outside the program: its call is recorded
    with what it was given. *)
Definition call_setup (f : setup_fun_t) (action : ASTNode)
    (args : list symbol_ptr_t) : M unit :=
  fun s => Ok (tt, add_event (EvSetup f action args) s).

(** [Process()] of every node class (AST.hpp:107, 133-139, 162-168, 190-198,
    223-231, 253-267, 293-301). *)
Fixpoint Process (n : ASTNode) : M symbol_ptr_t :=
  match n with
  | ASTNode_Leaf symbol_ptr _ => ret (Some symbol_ptr)
  | ASTNode_Block _ children =>
      let* _ := Process_statements Process children in
      ret None
  | ASTNode_Math1 _ fun_ children =>
      match children with
      | [child] =>
          let* input_symbol := Process child in
          let* sym := deref input_symbol in
          let* x := lift (AsDouble sym) in
          let* f := bound fun_ in
          let output_value := f x in
          let* _ := delete_if_temporary input_symbol in
          MakeTempSymbol T_double output_value
      | _ => raise AssertionFailure
      end
  | ASTNode_Op2 RETURN_T ARG1_T ARG2_T _ fun_ children =>
      match children with
      | [child1; child2] =>
          let* in1 := Process child1 in
          let* in2 := Process child2 in
          let* sym1 := deref in1 in
          let* sym2 := deref in2 in
          let* x1 := lift (As ARG1_T sym1) in
          let* x2 := lift (As ARG2_T sym2) in
          let* f := bound fun_ in
          let out_val := f x1 x2 in
          let* _ := delete_if_temporary in1 in
          let* _ := delete_if_temporary in2 in
          MakeTempSymbol RETURN_T out_val
      | _ => raise AssertionFailure
      end
  | ASTNode_Assign children =>
      match children with
      | [child1; child2] =>
          let* lhs := Process child1 in
          let* rhs := Process child2 in
          let* lsym := deref lhs in
          let* rsym := deref rhs in
          let* lsym' := lift (CopyValue lsym rsym) in
          let* _ := match lhs with
                    | Some l => store l lsym'
                    | None => raise NullDereference
                    end in
          let* _ := delete_if_temporary rhs in
          ret lhs
      | _ => raise AssertionFailure
      end
  | ASTNode_Call children =>
      match children with
      | callee :: arguments =>
          let* fn := Process callee in
          let* args := Process_arguments Process arguments in
          let* result := Symbol_Call fn args in
          let* _ := for_each delete_if_temporary args in
          ret result
      | [] => raise AssertionFailure
      end
  | ASTNode_Event _ setup_event children =>
      match children with
      | action :: arguments =>
          let* arg_entries := Process_arguments Process arguments in
          let* f := bound setup_event in
          let* _ := call_setup f action arg_entries in
          ret None
      | [] => raise AssertionFailure
      end
  end.


(** * Concrete programs *)

(** A root scope alone in the heap. *)
Definition root_scope : Symbol := new_Symbol_Scope "root" "" None None false.

Definition root_state : state := mkState {[0 := root_scope]} ∅ [].

(** Three nested scopes S1 in S2 in S3 (the root, at address 0) and a name
    declared in the root only. *)
Definition declare_nested : M (addr * addr) :=
  let* S2 := AddScope 0 "S2" "" None false in
  let* S1 := AddScope S2 "S1" "" None false in
  let* x := AddValueVar 0 "x" "" in
  ret (S1, x).

(** A scope that wraps the host object 7, which it owns. *)
Definition struct_state : state :=
  mkState {[0 := new_Symbol_Scope "org" "" None (Some 7) true]} {[7]} [].

(** A chain of [d] parent links from a scope up to a root scope. *)
Inductive scope_chain (s : state) : addr -> nat -> Prop :=
| chain_root this self t o own :
    heap s !! this = Some self -> kind self = Symbol_Scope t o own ->
    scope self = None -> scope_chain s this 0
| chain_nested this self t o own parent d :
    heap s !! this = Some self -> kind self = Symbol_Scope t o own ->
    scope self = Some parent -> scope_chain s parent d ->
    scope_chain s this (S d).

(** The number of allocations and of deallocations in a trace. *)
Definition allocations (l : list event) : nat :=
  length (List.filter (fun e => match e with EvNew _ => true | _ => false end) l).

Definition deallocations (l : list event) : nat :=
  length (List.filter (fun e => match e with EvDelete _ => true | _ => false end) l).

(** The number of calls of a host setup closure in a trace. *)
Definition setup_calls (l : list event) : nat :=
  length (List.filter (fun e => match e with EvSetup _ _ _ => true | _ => false end) l).

(** What a tree builder leaves: the value it returns and the state. *)
Definition built {A} (m : M A) (s : state) (default : A) : A * state :=
  match m s with
  | Ok r => r
  | Err _ => (default, s)
  end.

(** A literal of the source text: the temporary the front end makes for it,
    attached to a Leaf. *)
Definition literal (T : native_t) (v : native T) : M ASTNode :=
  let* p := MakeTempSymbol T v in
  new_ASTNode_Leaf p.

(** [ASTNode_Math2] (AST.hpp:207). *)
Definition ASTNode_Math2 := ASTNode_Op2 T_double T_double T_double.

(** [2 + 2;] as the only statement of a block over the root scope. *)
Definition two_plus_two : M ASTNode :=
  let* a := literal T_double 2%float in
  let* b := literal T_double 2%float in
  ret (ASTNode_Block 0 [ASTNode_Math2 "+" (Some PrimFloat.add) [a; b]]).

(** [3 + 4], with [+] bound to the addition of numbers. *)
Definition three_plus_four : M ASTNode :=
  let* a := literal T_double 3%float in
  let* b := literal T_double 4%float in
  ret (ASTNode_Math2 "+" (Some PrimFloat.add) [a; b]).

(** ["a" + "b"], with [+] bound to the concatenation of strings. *)
Definition a_plus_b : M ASTNode :=
  let* a := literal T_string "a" in
  let* b := literal T_string "b" in
  ret (ASTNode_Op2 T_string T_string T_string "+" (Some String.append) [a; b]).

(** A numeric variable X, declared in the root scope and initialised to 5
    by a first assignment; the tree of [X = 9]. *)
Definition X_is_9 : M (addr * ASTNode) :=
  let* X := AddValueVar 0 "X" "" in
  let* x := new_ASTNode_Leaf (Some X) in
  let* five := literal T_double 5%float in
  let* _ := Process (ASTNode_Assign [x; five]) in
  let* nine := literal T_double 9%float in
  ret (X, ASTNode_Assign [x; nine]).

(** A host function without arguments that returns the number 1. *)
Definition DoThing : fun_t := fun _ => Ok (R_double 1%float).

(** [@OnUpdate(10) DoThing();]: the action and the Event node. *)
Definition on_update : M (ASTNode * ASTNode) :=
  let* f := AddFunction 0 "DoThing" DoThing "" in
  let* callee := new_ASTNode_Leaf (Some f) in
  let action := ASTNode_Call [callee] in
  let* ten := literal T_double 10%float in
  ret (action, ASTNode_Event "OnUpdate" (Some 0) [action; ten]).

(** [@OnUpdate(1 + 2) DoThing();]: an Event whose argument is computed. *)
Definition on_update_sum : M ASTNode :=
  let* f := AddFunction 0 "DoThing" DoThing "" in
  let* callee := new_ASTNode_Leaf (Some f) in
  let* a := literal T_double 1%float in
  let* b := literal T_double 2%float in
  ret (ASTNode_Event "OnUpdate" (Some 0)
         [ASTNode_Call [callee];
          ASTNode_Math2 "+" (Some PrimFloat.add) [a; b]]).

(** A host function that returns a function. *)
Definition MakeThing : fun_t := fun _ => Ok (R_function DoThing).

(** [MakeThing()(1 + 2)]: the callee of the outer call is itself a call. *)
Definition call_of_call : M ASTNode :=
  let* f := AddFunction 0 "MakeThing" MakeThing "" in
  let* callee := new_ASTNode_Leaf (Some f) in
  let* a := literal T_double 1%float in
  let* b := literal T_double 2%float in
  ret (ASTNode_Call
         [ASTNode_Call [callee];
          ASTNode_Math2 "+" (Some PrimFloat.add) [a; b]]).

(** The spec's words for the children of a Block: "process every child in
    declared order; for each child result that is temporary, release it
    immediately". *)
Inductive Block_run : list ASTNode -> state -> state -> Prop :=
| Block_run_nil s : Block_run [] s s
| Block_run_none node rest s s1 s' :
    Process node s = Ok (None, s1) ->
    Block_run rest s1 s' -> Block_run (node :: rest) s s'
| Block_run_keep node rest s a sym s1 s' :
    Process node s = Ok (Some a, s1) ->
    heap s1 !! a = Some sym -> is_temporary sym = false ->
    Block_run rest s1 s' -> Block_run (node :: rest) s s'
| Block_run_release node rest s a sym s1 s2 s' :
    Process node s = Ok (Some a, s1) ->
    heap s1 !! a = Some sym -> is_temporary sym = true ->
    Delete a s1 = Ok (tt, s2) ->
    Block_run rest s2 s' -> Block_run (node :: rest) s s'.

(** The spec's words for the arguments of a Call or an Event: processed
    "left-to-right to obtain an ordered argument list". *)
Inductive arguments_run
    : list ASTNode -> state -> list symbol_ptr_t -> state -> Prop :=
| arguments_run_nil s : arguments_run [] s [] s
| arguments_run_cons node rest s arg s1 args s' :
    Process node s = Ok (arg, s1) ->
    arguments_run rest s1 args s' ->
    arguments_run (node :: rest) s (arg :: args) s'.

(** No live temporary is a scope: the temporaries the evaluation makes are
    values and functions. *)
Definition no_temporary_scope (s : state) : Prop :=
  map_Forall (fun _ sym => is_temporary sym = true -> IsScope sym = false)
             (heap s).

(** The Symbol at [p] was given to a host setup closure. *)
Definition handed_over (l : list event) (p : addr) : Prop :=
  exists f action args, EvSetup f action args ∈ l /\ Some p ∈ args.

(** The Symbol at [p] was given to a host setup closure on the way from [s]
    to [s']. *)
Definition handed_since (s s' : state) (p : addr) : Prop :=
  exists k, log s' = log s ++ k /\ handed_over k p.

(** The callee child of every Call node of the tree is a Leaf: the function
    is called by its name. *)
Fixpoint named_callees (n : ASTNode) : bool :=
  match n with
  | ASTNode_Leaf _ _ => true
  | ASTNode_Block _ children
  | ASTNode_Math1 _ _ children
  | ASTNode_Op2 _ _ _ _ _ children
  | ASTNode_Assign children
  | ASTNode_Event _ _ children => forallb named_callees children
  | ASTNode_Call children =>
      match children with
      | ASTNode_Leaf _ _ :: _ => forallb named_callees children
      | _ => false
      end
  end.

(** What a run from [s] to [s'] keeps of the ownership discipline, [X] being
    the temporaries it has made and not yet disposed of. *)
Record disciplined (s : state) (X : addr -> Prop) (s' : state) : Prop := {
  still_no_temporary_scope : no_temporary_scope s';
  named_kept : forall p sym,
    heap s !! p = Some sym -> is_temporary sym = false ->
    exists sym', heap s' !! p = Some sym' /\ is_temporary sym' = false;
  trace_grows : log s `prefix_of` log s';
  temporaries_accounted : forall p sym',
    heap s' !! p = Some sym' -> is_temporary sym' = true ->
    (exists sym, heap s !! p = Some sym /\ is_temporary sym = true) \/
    X p \/ handed_since s s' p
}.

(** The trees and states of the programs above, built from the root
    state. *)
Definition no_tree : ASTNode := ASTNode_Block 0 [].

Definition sum_tree : ASTNode := (built three_plus_four root_state no_tree).1.
Definition sum_state : state := (built three_plus_four root_state no_tree).2.

Definition block_tree : ASTNode := (built two_plus_two root_state no_tree).1.
Definition block_state : state := (built two_plus_two root_state no_tree).2.

Definition event_sum_tree : ASTNode :=
  (built on_update_sum root_state no_tree).1.
Definition event_sum_state : state :=
  (built on_update_sum root_state no_tree).2.

Definition call_tree : ASTNode := (built call_of_call root_state no_tree).1.
Definition call_state : state := (built call_of_call root_state no_tree).2.

(** The state in which the front end has made the temporary of a literal
    [2] and has not yet attached it to a Leaf. *)
Definition literal_state : state :=
  (built (MakeTempSymbol T_double 2%float) root_state None).2.

(** What the induction on the tree proves of each node. *)
Definition node_disciplined (n : ASTNode) : Prop :=
  named_callees n = true ->
  forall s r s', no_temporary_scope s -> Process n s = Ok (r, s') ->
    disciplined s (fun p => r = Some p) s'.

(** * Further definitions *)

(** The state with the three nested scopes: the root at 0, S2 at 1, S1 at 2
    and the variable x of the root at 3. *)
Definition nested_state : state := (built declare_nested root_state (0, 0)).2.

(** A function f and two variables a and b declared in the root scope, at 1,
    2 and 3. *)
Definition declare_names : M unit :=
  let* _ := AddFunction 0 "f" DoThing "" in
  let* _ := AddValueVar 0 "a" "" in
  let* _ := AddValueVar 0 "b" "" in
  ret tt.

Definition names_state : state := (built declare_names root_state tt).2.


(** The tables on the way from a scope up to a root scope, innermost
    first. *)
Inductive scope_path (s : state) : addr -> list (gmap string addr) -> Prop :=
| path_root this self t o own :
    heap s !! this = Some self -> kind self = Symbol_Scope t o own ->
    scope self = None -> scope_path s this [t]
| path_nested this self t o own parent ts :
    heap s !! this = Some self -> kind self = Symbol_Scope t o own ->
    scope self = Some parent -> scope_path s parent ts ->
    scope_path s this (t :: ts).

(** The entry of the first table that declares the name. *)
Fixpoint first_declared (nm : string) (ts : list (gmap string addr))
    : symbol_ptr_t :=
  match ts with
  | [] => None
  | t :: ts' =>
      match t !! nm with
      | Some p => Some p
      | None => first_declared nm ts'
      end
  end.

(** The state once the Symbols at the addresses of a list, none of them a
    scope, have been deleted in the order of the list. *)
Definition released (l : list addr) (s : state) : state :=
  mkState (foldl (fun h a => delete a h) (heap s) l) (host_objects s)
          (log s ++ map EvDelete l).

(** The Symbols that the leaves of a tree own, in the order in which the
    destructor of the tree reaches them. *)
Definition owned_by_children (owned : ASTNode -> list addr)
    : list ASTNode -> list addr :=
  fix go (children : list ASTNode) : list addr :=
    match children with
    | [] => []
    | node :: rest => owned node ++ go rest
    end.

Fixpoint owned_symbols (n : ASTNode) : list addr :=
  match n with
  | ASTNode_Leaf symbol_ptr own_symbol =>
      if own_symbol then [symbol_ptr] else []
  | ASTNode_Block _ children
  | ASTNode_Math1 _ _ children
  | ASTNode_Op2 _ _ _ _ _ children
  | ASTNode_Assign children
  | ASTNode_Call children
  | ASTNode_Event _ _ children => owned_by_children owned_symbols children
  end.

(** [HasValue()] (AST.hpp:43 for the base class, which Block and Event keep;
    AST.hpp:101, 158, 186, 219, 249 for the others). *)
Definition HasValue (n : ASTNode) : bool :=
  match n with
  | ASTNode_Block _ _ | ASTNode_Event _ _ _ => false
  | _ => true
  end.

(** [std::is_same<T, U>()] at the native types. *)
Definition is_same (T U : native_t) : bool :=
  match T, U with
  | T_double, T_double | T_string, T_string => true
  | _, _ => false
  end.

(** [children[0]], with the bounds check of [emp::vector]. *)
Definition first_child (children : list ASTNode) : M ASTNode :=
  match children with
  | node :: _ => ret node
  | [] => raise AssertionFailure
  end.

(** The type predicates of the nodes.  Those of a Symbol (Symbol.hpp is not
    among the sources) are parameters. *)
Section NodePredicates.
Variables Symbol_IsNumeric Symbol_IsString : Symbol -> bool.
Variables Symbol_HasNumericReturn Symbol_HasStringReturn : Symbol -> bool.

(** [HasNumericReturn()] (AST.hpp:44, 102, 220). *)
Fixpoint HasNumericReturn (n : ASTNode) : M bool :=
  match n with
  | ASTNode_Leaf symbol_ptr _ =>
      let* sym := deref (Some symbol_ptr) in
      ret (Symbol_HasNumericReturn sym)
  | ASTNode_Assign children =>
      match children with
      | node :: _ => HasNumericReturn node
      | [] => raise AssertionFailure
      end
  | _ => ret false
  end.

(** [HasStringReturn()] (AST.hpp:45, 103, 221). *)
Fixpoint HasStringReturn (n : ASTNode) : M bool :=
  match n with
  | ASTNode_Leaf symbol_ptr _ =>
      let* sym := deref (Some symbol_ptr) in
      ret (Symbol_HasStringReturn sym)
  | ASTNode_Assign children =>
      match children with
      | node :: _ => HasStringReturn node
      | [] => raise AssertionFailure
      end
  | _ => ret false
  end.

(** [IsNumeric()] (AST.hpp:41, 99, 157, 184, 217, 247). *)
Fixpoint IsNumeric (n : ASTNode) : M bool :=
  match n with
  | ASTNode_Leaf symbol_ptr _ =>
      let* sym := deref (Some symbol_ptr) in
      ret (Symbol_IsNumeric sym)
  | ASTNode_Math1 _ _ _ => ret true
  | ASTNode_Op2 RETURN_T _ _ _ _ _ => ret (is_same RETURN_T T_double)
  | ASTNode_Assign children =>
      match children with
      | node :: _ => IsNumeric node
      | [] => raise AssertionFailure
      end
  | ASTNode_Call children =>
      let* callee := first_child children in
      HasNumericReturn callee
  | ASTNode_Block _ _ | ASTNode_Event _ _ _ => ret false
  end.

(** [IsString()] (AST.hpp:42, 100, 185, 218, 248). *)
Fixpoint IsString (n : ASTNode) : M bool :=
  match n with
  | ASTNode_Leaf symbol_ptr _ =>
      let* sym := deref (Some symbol_ptr) in
      ret (Symbol_IsString sym)
  | ASTNode_Op2 RETURN_T _ _ _ _ _ => ret (is_same RETURN_T T_string)
  | ASTNode_Assign children =>
      match children with
      | node :: _ => IsString node
      | [] => raise AssertionFailure
      end
  | ASTNode_Call children =>
      let* callee := first_child children in
      HasStringReturn callee
  | ASTNode_Math1 _ _ _ | ASTNode_Block _ _ | ASTNode_Event _ _ _ => ret false
  end.

End NodePredicates.

(** A tree of unary and binary operators over leaves. *)
Fixpoint operator_expression (n : ASTNode) : bool :=
  match n with
  | ASTNode_Leaf _ _ => true
  | ASTNode_Math1 _ _ children
  | ASTNode_Op2 _ _ _ _ _ children => forallb operator_expression children
  | _ => false
  end.

(** The Symbols of the leaves of a tree, owned or not. *)
Definition leaves_of_children (leaves : ASTNode -> list addr)
    : list ASTNode -> list addr :=
  fix go (children : list ASTNode) : list addr :=
    match children with
    | [] => []
    | node :: rest => leaves node ++ go rest
    end.

Fixpoint leaf_symbols (n : ASTNode) : list addr :=
  match n with
  | ASTNode_Leaf symbol_ptr _ => [symbol_ptr]
  | ASTNode_Block _ children
  | ASTNode_Math1 _ _ children
  | ASTNode_Op2 _ _ _ _ _ children
  | ASTNode_Assign children
  | ASTNode_Call children
  | ASTNode_Event _ _ children => leaves_of_children leaf_symbols children
  end.

(** Every Symbol of a list is live and not temporary. *)
Definition all_named (l : list addr) (s : state) : Prop :=
  forall p, p ∈ l ->
    exists sym, heap s !! p = Some sym /\ is_temporary sym = false.

(** What the evaluation of an operator expression from [s] leaves: the heap
    of [s] when [new] is [false] and the result is one of the leaves; the
    heap of [s] and the result, a new temporary, when [new] is [true]. *)
Record expression_run (leaves : list addr) (s : state) (r : symbol_ptr_t)
    (s' : state) (new : bool) : Prop := {
  run_host_objects : host_objects s' = host_objects s;
  run_trace : exists k,
    log s' = log s ++ k /\
    allocations k = deallocations k + (if new then 1 else 0) /\
    setup_calls k = 0;
  run_result : exists a,
    r = Some a /\
    if new then
      heap s !! a = None /\
      exists out, heap s' = <[a := out]> (heap s) /\
                  is_temporary out = true /\ IsScope out = false
    else heap s' = heap s /\ a ∈ leaves
}.

(** [operator bool] of a [std::function] member: a target has been set. *)
Definition is_set {A} (f : option A) : bool :=
  match f with
  | Some _ => true
  | None => false
  end.

(** A tree of unary operators and of binary operators from numbers to a
    number, each with its function set and with the children it asks for,
    over leaves. *)
Fixpoint arithmetic (n : ASTNode) : bool :=
  match n with
  | ASTNode_Leaf _ _ => true
  | ASTNode_Math1 _ fun_ children =>
      is_set fun_ && (length children =? 1) && forallb arithmetic children
  | ASTNode_Op2 RETURN_T ARG1_T ARG2_T _ fun_ children =>
      is_same RETURN_T T_double && is_same ARG1_T T_double &&
      is_same ARG2_T T_double && is_set fun_ && (length children =? 2) &&
      forallb arithmetic children
  | _ => false
  end.

(** Every Symbol of a list is a live variable of type Value that is not
    temporary. *)
Definition all_numeric (l : list addr) (s : state) : Prop :=
  forall p, p ∈ l ->
    exists sym v, heap s !! p = Some sym /\ is_temporary sym = false /\
                  kind sym = Symbol_DoubleVar v.

(** The end of a line. *)
Definition newline : string :=
  String (Ascii.ascii_of_nat 10) EmptyString.

(** [Write(os, offset)] of every node class (AST.hpp:109-121, 141-146,
    170-173, 200-204, 233-237, 269-277, 303-311): the text that is sent to
    the stream.  [Symbol::IsString] (Symbol.hpp) and [emp::to_literal] (the
    Empirical library) are not among the sources: they are parameters. *)
Section NodeWrite.
Variable Symbol_IsString : Symbol -> bool.
Variable to_literal : string -> string.

(** The loop of [ASTNode_Block::Write] (AST.hpp:142-145). *)
Definition Write_statements (Write : ASTNode -> M string) (offset : string)
    : list ASTNode -> M string :=
  fix go (children : list ASTNode) : M string :=
    match children with
    | [] => ret ""
    | child_ptr :: rest =>
        let* out := Write child_ptr in
        let* outs := go rest in
        ret (out +:+ ";" +:+ newline +:+ offset +:+ outs)
    end.

(** The loops of [ASTNode_Call::Write] (AST.hpp:272-275) and of
    [ASTNode_Event::Write] (AST.hpp:305-308), from the child of index [i]
    on. *)
Definition Write_arguments (Write : ASTNode -> M string)
    : nat -> list ASTNode -> M string :=
  fix go (i : nat) (children : list ASTNode) : M string :=
    match children with
    | [] => ret ""
    | node :: rest =>
        let* out := Write node in
        let* outs := go (S i) rest in
        ret ((if 1 <? i then ", " else "") +:+ out +:+ outs)
    end.

Fixpoint Write (n : ASTNode) (offset : string) : M string :=
  match n with
  | ASTNode_Leaf symbol_ptr _ =>
      let* sym := deref (Some symbol_ptr) in
      if String.eqb (name sym) "" then
        let* output := lift (AsString sym) in
        ret (if Symbol_IsString sym then to_literal output else output)
      else ret (name sym)
  | ASTNode_Block _ children =>
      Write_statements (fun child_ptr => Write child_ptr (offset +:+ "  "))
        offset children
  | ASTNode_Math1 nm _ children =>
      match children with
      | child :: _ =>
          let* out := Write child offset in
          ret (nm +:+ out)
      | [] => raise AssertionFailure
      end
  | ASTNode_Op2 _ _ _ nm _ children =>
      match children with
      | child1 :: rest =>
          let* out1 := Write child1 offset in
          match rest with
          | child2 :: _ =>
              let* out2 := Write child2 offset in
              ret (out1 +:+ " " +:+ nm +:+ " " +:+ out2)
          | [] => raise AssertionFailure
          end
      | [] => raise AssertionFailure
      end
  | ASTNode_Assign children =>
      match children with
      | child1 :: rest =>
          let* out1 := Write child1 offset in
          match rest with
          | child2 :: _ =>
              let* out2 := Write child2 offset in
              ret (out1 +:+ " = " +:+ out2)
          | [] => raise AssertionFailure
          end
      | [] => raise AssertionFailure
      end
  | ASTNode_Call children =>
      match children with
      | callee :: arguments =>
          let* out := Write callee offset in
          let* outs :=
            Write_arguments (fun node => Write node offset) 1 arguments in
          ret (out +:+ "(" +:+ outs +:+ ")")
      | [] => raise AssertionFailure
      end
  | ASTNode_Event nm _ children =>
      match children with
      | action :: arguments =>
          let* outs :=
            Write_arguments (fun node => Write node offset) 1 arguments in
          let* out := Write action offset in
          ret ("@" +:+ nm +:+ "(" +:+ outs +:+ ") " +:+ out)
      | [] => raise AssertionFailure
      end
  end.

End NodeWrite.

(** No Block in the tree. *)
Fixpoint no_block (n : ASTNode) : bool :=
  match n with
  | ASTNode_Leaf _ _ => true
  | ASTNode_Block _ _ => false
  | ASTNode_Math1 _ _ children
  | ASTNode_Op2 _ _ _ _ _ children
  | ASTNode_Assign children
  | ASTNode_Call children
  | ASTNode_Event _ _ children => forallb no_block children
  end.

(** * Properties *)

(** ** The state and error monad *)

Lemma bind_Ok {A B} (m : M A) (k : A -> M B) s a s' :
  m s = Ok (a, s') -> bind m k s = k a s'.
Proof. unfold bind. by intros ->. Qed.

Lemma bind_Err {A B} (m : M A) (k : A -> M B) s e :
  m s = Err e -> bind m k s = Err e.
Proof. unfold bind. by intros ->. Qed.

Lemma bind_inv {A B} (m : M A) (k : A -> M B) s b s'' :
  bind m k s = Ok (b, s'') ->
  exists a s', m s = Ok (a, s') /\ k a s' = Ok (b, s'').
Proof.
  unfold bind. destruct (m s) as [[a s']|e]; [|done]. intros Hk. eauto.
Qed.

Lemma deref_live a s sym :
  heap s !! a = Some sym -> deref (Some a) s = Ok (sym, s).
Proof. unfold deref. by intros ->. Qed.

Lemma deref_inv p s sym s' :
  deref p s = Ok (sym, s') ->
  exists a, p = Some a /\ heap s !! a = Some sym /\ s' = s.
Proof.
  unfold deref. destruct p as [a|]; [|done].
  destruct (heap s !! a) as [sym0|] eqn:Ha; [|done].
  intros [= <- <-]. eauto.
Qed.

Lemma fresh_addr_free s : heap s !! fresh_addr s = None.
Proof. apply not_elem_of_dom. unfold fresh_addr. apply is_fresh. Qed.

(** ** Declaration and lookup *)

Lemma Add_fresh this nm ctor s self t o own :
  heap s !! this = Some self -> kind self = Symbol_Scope t o own ->
  t !! nm = None ->
  Add this nm ctor s =
    Ok (fresh_addr s,
        set_heap (<[this := set_kind (Symbol_Scope (<[nm := fresh_addr s]> t) o own) self]>
                    (<[fresh_addr s := ctor nm]> (heap s)))
                 (add_event (EvNew (fresh_addr s)) s)).
Proof.
  intros Hthis Hk Hnm. unfold Add.
  rewrite (bind_Ok _ _ _ _ _ (deref_live _ _ _ Hthis)).
  unfold NewPtr at 1. unfold bind at 1.
  assert (Hne : fresh_addr s ≠ this).
  { intros E. pose proof (fresh_addr_free s) as Hf. rewrite E in Hf. congruence. }
  erewrite bind_Ok; last first.
  { apply deref_live. cbn. rewrite lookup_insert_ne; [exact Hthis|done]. }
  rewrite Hk. rewrite Hnm. cbn. done.
Qed.

Lemma Add_duplicate this nm ctor s self t o own q :
  heap s !! this = Some self -> kind self = Symbol_Scope t o own ->
  t !! nm = Some q ->
  Add this nm ctor s = Err AssertionFailure.
Proof.
  intros Hthis Hk Hnm. unfold Add.
  rewrite (bind_Ok _ _ _ _ _ (deref_live _ _ _ Hthis)).
  unfold NewPtr at 1. unfold bind at 1.
  assert (Hne : fresh_addr s ≠ this).
  { intros E. pose proof (fresh_addr_free s) as Hf. rewrite E in Hf. congruence. }
  erewrite bind_Ok; last first.
  { apply deref_live. cbn. rewrite lookup_insert_ne; [exact Hthis|done]. }
  rewrite Hk. rewrite Hnm. cbn. done.
Qed.

Lemma LookupSymbol_unfold fuel this nm scan s self t o own :
  heap s !! this = Some self -> kind self = Symbol_Scope t o own ->
  LookupSymbol (S fuel) this nm scan s =
    match t !! nm with
    | Some p => Ok (Some p, s)
    | None =>
        match scope self with
        | Some parent =>
            if scan then LookupSymbol fuel parent nm true s else Ok (None, s)
        | None => Ok (None, s)
        end
    end.
Proof.
  intros Hthis Hk. cbn [LookupSymbol].
  rewrite (bind_Ok _ _ _ _ _ (deref_live _ _ _ Hthis)). rewrite Hk.
  destruct (t !! nm); [done|].
  destruct (scope self); [|done]. by destruct scan.
Qed.

(** C8. Declaring a name in a scope that does not hold it, then looking the
    name up (with or without scanning of the enclosing scopes), returns the
    declared entry; declaring the name again fails the assertion of [Add]:
    the outcome is an error, which carries no state and no entry. *)
Theorem Add_then_LookupSymbol this nm ctor s self t o own :
  heap s !! this = Some self -> kind self = Symbol_Scope t o own ->
  t !! nm = None ->
  exists p s',
    Add this nm ctor s = Ok (p, s') /\
    heap s' !! p = Some (ctor nm) /\
    (forall fuel scan, LookupSymbol (S fuel) this nm scan s' = Ok (Some p, s')) /\
    GetSymbol this nm s' = Ok (Some p, s') /\
    (forall ctor', Add this nm ctor' s' = Err AssertionFailure).
Proof.
  intros Hthis Hk Hnm.
  assert (Hne : fresh_addr s ≠ this).
  { intros E. pose proof (fresh_addr_free s) as Hf. rewrite E in Hf. congruence. }
  eexists _, _. split; [by eapply Add_fresh|].
  set (s' := set_heap _ _).
  assert (Hthis' : heap s' !! this =
            Some (set_kind (Symbol_Scope (<[nm := fresh_addr s]> t) o own) self)).
  { subst s'. cbn. by rewrite lookup_insert_eq. }
  split; [|split; [|split]].
  - subst s'. cbn. rewrite lookup_insert_ne; [|done]. by rewrite lookup_insert_eq.
  - intros fuel scan. erewrite LookupSymbol_unfold; [|exact Hthis'|done].
    by rewrite lookup_insert_eq.
  - unfold GetSymbol. rewrite (bind_Ok _ _ _ _ _ (deref_live _ _ _ Hthis')).
    cbn. by rewrite lookup_insert_eq.
  - intros ctor'. eapply Add_duplicate; [exact Hthis'|done|].
    by rewrite lookup_insert_eq.
Qed.

Lemma LookupSymbol_total s d this :
  scope_chain s this d ->
  forall fuel nm scan, d < fuel ->
    exists r, LookupSymbol fuel this nm scan s = Ok (r, s).
Proof.
  induction 1 as [this self t o own Hthis Hk Hroot
                 |this self t o own parent d Hthis Hk Hpar _ IH];
    intros [|fuel] nm scan Hlt; try lia;
    erewrite LookupSymbol_unfold by eauto; rewrite ?Hroot, ?Hpar;
    destruct (t !! nm); eauto.
  destruct scan; eauto. apply IH. lia.
Qed.

(** C9. [LookupSymbol] answers from the local table when the name is there;
    otherwise, when scanning is on and the scope has a parent, it is the
    lookup in the parent; otherwise it is the null pointer, not an error.
    On a chain of parents that reaches a root the lookup returns.  With a
    name declared in the root S3 only, the lookup from the innermost scope
    S1 finds the entry when scanning and finds nothing when not. *)
Theorem LookupSymbol_resolves :
  (forall fuel this nm scan s self t o own,
     heap s !! this = Some self -> kind self = Symbol_Scope t o own ->
     LookupSymbol (S fuel) this nm scan s =
       match t !! nm with
       | Some p => Ok (Some p, s)
       | None =>
           match scope self with
           | Some parent =>
               if scan then LookupSymbol fuel parent nm true s
               else Ok (None, s)
           | None => Ok (None, s)
           end
       end) /\
  (forall s d this fuel nm scan,
     scope_chain s this d -> d < fuel ->
     exists r, LookupSymbol fuel this nm scan s = Ok (r, s)) /\
  (exists S1 x s,
     declare_nested root_state = Ok ((S1, x), s) /\
     forall fuel, 3 <= fuel ->
       LookupSymbol fuel S1 "x" true s = Ok (Some x, s) /\
       LookupSymbol fuel S1 "x" false s = Ok (None, s)).
Proof.
  split; [|split].
  - intros. by eapply LookupSymbol_unfold.
  - intros. by eapply LookupSymbol_total.
  - eexists _, _, _. split; [vm_compute; reflexivity|].
    intros [|[|[|fuel]]] Hfuel; try lia. split; vm_compute; reflexivity.
Qed.

(** ** Clone *)

Lemma Clone_scope p s sym t o own :
  heap s !! p = Some sym -> kind sym = Symbol_Scope t o own ->
  Clone p s =
    Ok (fresh_addr s,
        add_event (EvNew (fresh_addr s))
          (set_heap (<[fresh_addr s := set_kind (Symbol_Scope ∅ None false) sym]>
                       (heap s)) s)).
Proof.
  intros Hp Hk. unfold Clone. cbn [Clone_fuel].
  rewrite (bind_Ok _ _ _ _ _ (deref_live _ _ _ Hp)). rewrite Hk.
  unfold Symbol_Scope_copy, NewPtr, bind at 1.
  erewrite bind_Ok; last first.
  { apply deref_live. cbn. by rewrite lookup_insert_eq. }
  done.
Qed.

(** C1 (the code at a scope with one entry and a host object). [Clone] of a
    scope that holds the entry "x" and the host object 7 returns a new scope
    whose table is empty and whose handle is null: the copy constructor
    loops over the table of the copy, not over the table of its argument,
    and copies no data member. *)
Theorem Clone_scope_loses_entries :
  (forall p s sym t o own,
     heap s !! p = Some sym -> kind sym = Symbol_Scope t o own ->
     exists q s' copy,
       Clone p s = Ok (q, s') /\ heap s' !! q = Some copy /\
       kind copy = Symbol_Scope ∅ None false) /\
  (exists x s1 q s2 copy,
     AddValueVar 0 "x" "" struct_state = Ok (x, s1) /\
     GetSymbol 0 "x" s1 = Ok (Some x, s1) /\
     Clone 0 s1 = Ok (q, s2) /\
     heap s2 !! q = Some copy /\
     kind copy = Symbol_Scope ∅ None false /\
     GetSymbol q "x" s2 = Ok (None, s2)).
Proof.
  split.
  - intros p s sym t o own Hp Hk. eexists _, _, _.
    split; [by eapply Clone_scope|]. cbn. by rewrite lookup_insert_eq.
  - eexists _, _, _, _, _. repeat split; vm_compute; reflexivity.
Qed.

(** ** Release of a Symbol *)

Lemma Delete_plain a s sym :
  heap s !! a = Some sym -> IsScope sym = false ->
  Delete a s = Ok (tt, add_event (EvDelete a) (set_heap (delete a (heap s)) s)).
Proof.
  intros Ha Hk. unfold Delete. cbn [Delete_fuel].
  rewrite (bind_Ok _ _ _ _ _ (deref_live _ _ _ Ha)).
  unfold IsScope in Hk. by destruct (kind sym).
Qed.

Lemma Delete_gone a s u s' : Delete a s = Ok (u, s') -> heap s' !! a = None.
Proof.
  unfold Delete. cbn [Delete_fuel]. intros Hd.
  apply bind_inv in Hd as (sym & s1 & _ & Hd).
  apply bind_inv in Hd as (? & s2 & _ & Hd).
  injection Hd as _ <-. cbn. apply lookup_delete_eq.
Qed.

Lemma delete_if_temporary_keep a s sym :
  heap s !! a = Some sym -> is_temporary sym = false ->
  delete_if_temporary (Some a) s = Ok (tt, s).
Proof.
  intros Ha Ht. unfold delete_if_temporary.
  rewrite (bind_Ok _ _ _ _ _ (deref_live _ _ _ Ha)). by rewrite Ht.
Qed.

Lemma delete_if_temporary_release a s sym :
  heap s !! a = Some sym -> is_temporary sym = true ->
  delete_if_temporary (Some a) s = Delete a s.
Proof.
  intros Ha Ht. unfold delete_if_temporary.
  rewrite (bind_Ok _ _ _ _ _ (deref_live _ _ _ Ha)). by rewrite Ht.
Qed.

Lemma delete_if_temporary_inv p s u s' :
  delete_if_temporary p s = Ok (u, s') ->
  exists a sym, p = Some a /\ heap s !! a = Some sym /\
    (if is_temporary sym then Delete a s = Ok (u, s') else s' = s).
Proof.
  unfold delete_if_temporary. intros Hd.
  apply bind_inv in Hd as (sym & s1 & Hp & Hd).
  apply deref_inv in Hp as (a & -> & Ha & ->).
  exists a, sym. repeat split; [done|].
  destruct (is_temporary sym); [done|]. by injection Hd as _ <-.
Qed.

(** ** Block *)

Lemma Process_statements_cons node rest s :
  Process_statements Process (node :: rest) s =
    match Process node s with
    | Ok (Some a, s1) =>
        match delete_if_temporary (Some a) s1 with
        | Ok (_, s2) => Process_statements Process rest s2
        | Err e => Err e
        end
    | Ok (None, s1) => Process_statements Process rest s1
    | Err e => Err e
    end.
Proof.
  cbn [Process_statements]. unfold bind at 1.
  destruct (Process node s) as [[[a|] s1]|e]; [|done..].
  unfold bind at 1. by destruct (delete_if_temporary (Some a) s1) as [[[] s2]|e].
Qed.

Lemma Process_statements_run children s s' :
  Process_statements Process children s = Ok (tt, s') <->
  Block_run children s s'.
Proof.
  split.
  - revert s. induction children as [|node rest IH]; intros s.
    + intros [= <-]. constructor.
    + rewrite Process_statements_cons.
      destruct (Process node s) as [[[a|] s1]|e] eqn:Hn; [| |done].
      * destruct (delete_if_temporary (Some a) s1) as [[[] s2]|e] eqn:Hd; [|done].
        intros Hrest. apply delete_if_temporary_inv in Hd
          as (a' & sym & [= <-] & Ha & Hd).
        destruct (is_temporary sym) eqn:Ht.
        -- eapply Block_run_release; eauto.
        -- subst s2. eapply Block_run_keep; eauto.
      * intros Hrest. eapply Block_run_none; eauto.
  - induction 1 as [s|node rest s s1 s' Hn _ IH
                   |node rest s a sym s1 s' Hn Ha Ht _ IH
                   |node rest s a sym s1 s2 s' Hn Ha Ht Hd _ IH];
      [done|rewrite Process_statements_cons, Hn..].
    + done.
    + by rewrite (delete_if_temporary_keep _ _ _ Ha Ht).
    + by rewrite (delete_if_temporary_release _ _ _ Ha Ht), Hd.
Qed.

(** C6. [Process] of a Block returns the null pointer, and its effect is that
    of processing the children in their order, each result that is temporary
    deleted right after the child that produced it (after which it is no
    longer live) and before the next child; the deletion of a temporary that
    is not a scope returns, with that one Symbol gone.  For the block of the one
    statement [2 + 2;] the heap after [Process] is the heap before, and the
    trace grew by one allocation and one deallocation of the same address. *)
Theorem Block_Process :
  (forall scope_ptr children s r s',
     Process (ASTNode_Block scope_ptr children) s = Ok (r, s') <->
     r = None /\ Block_run children s s') /\
  (forall a s u s', Delete a s = Ok (u, s') -> heap s' !! a = None) /\
  (forall a s sym,
     heap s !! a = Some sym -> IsScope sym = false ->
     Delete a s =
       Ok (tt, add_event (EvDelete a) (set_heap (delete a (heap s)) s))) /\
  (exists tree s t s',
     two_plus_two root_state = Ok (tree, s) /\
     Process tree s = Ok (None, s') /\
     heap s' = heap s /\
     log s' = log s ++ [EvNew t; EvDelete t] /\
     allocations (log s') - allocations (log s) = 1 /\
     deallocations (log s') - deallocations (log s) = 1).
Proof.
  split; [|split; [|split]].
  - intros scope_ptr children s r s'. cbn [Process].
    rewrite <- Process_statements_run. unfold bind, ret.
    destruct (Process_statements Process children s) as [[[] s1]|e].
    + split; [by intros [= <- <-]|]. by intros [-> [= <-]].
    + split; [done|]. by intros [_ ?].
  - apply Delete_gone.
  - apply Delete_plain.
  - eexists _, _, _, _. split; [vm_compute; reflexivity|].
    split; [vm_compute; reflexivity|]. repeat split.
Qed.

(** ** Arguments *)

Lemma Process_arguments_run arguments s args s' :
  Process_arguments Process arguments s = Ok (args, s') <->
  arguments_run arguments s args s'.
Proof.
  split.
  - revert s args. induction arguments as [|node rest IH]; intros s args.
    + intros [= <- <-]. constructor.
    + cbn [Process_arguments]. intros Hp.
      apply bind_inv in Hp as (arg & s1 & Hn & Hp).
      apply bind_inv in Hp as (args' & s2 & Hrest & Hp).
      injection Hp as <- <-. econstructor; eauto.
  - induction 1 as [s|node rest s arg s1 args s' Hn _ IH]; [done|].
    cbn [Process_arguments]. rewrite (bind_Ok _ _ _ _ _ Hn).
    by rewrite (bind_Ok _ _ _ _ _ IH).
Qed.

Lemma lift_Ok {A} (o : outcome A) a s : o = Ok a -> lift o s = Ok (a, s).
Proof. by intros ->. Qed.

(** ** Coercions *)

Lemma As_not_scope T sym x : As T sym = Ok x -> IsScope sym = false.
Proof.
  unfold IsScope. destruct T; cbn; unfold AsDouble, AsString;
    by destruct (kind sym).
Qed.

Lemma As_native_kind T v sym :
  kind sym = native_kind T v -> As T sym = Ok v.
Proof.
  destruct T; cbn; unfold AsDouble, AsString; by intros ->.
Qed.

Lemma CopyValue_inv this other this' :
  CopyValue this other = Ok this' ->
  name this' = name this /\ desc this' = desc this /\
  scope this' = scope this /\ is_temporary this' = is_temporary this /\
  is_builtin this' = is_builtin this /\
  IsScope this = false /\ IsScope other = false /\ IsScope this' = false /\
  ((exists v, AsDouble other = Ok v /\ kind this' = Symbol_DoubleVar v) \/
   (exists v, AsString other = Ok v /\ kind this' = Symbol_StringVar v)).
Proof.
  unfold CopyValue, IsScope. destruct (kind this) eqn:Hk; try done.
  - destruct (AsDouble other) as [v|] eqn:Hv; [|done]. intros [= <-].
    cbn. repeat split; [|by left; eexists].
    unfold AsDouble in Hv. by destruct (kind other).
  - destruct (AsString other) as [v|] eqn:Hv; [|done]. intros [= <-].
    cbn. repeat split; [|by right; eexists].
    unfold AsString in Hv. by destruct (kind other).
Qed.

(** ** Binary operator *)

Lemma MakeTempSymbol_eq T v s :
  MakeTempSymbol T v s =
    Ok (Some (fresh_addr s),
        add_event (EvNew (fresh_addr s))
          (set_heap (<[fresh_addr s := temp_Symbol (native_kind T v)]> (heap s)) s)).
Proof. done. Qed.

Ltac finish_Op2 :=
  eexists _, _, _; split; [apply MakeTempSymbol_eq|];
  cbn; rewrite lookup_insert_eq; repeat split;
  rewrite <- ?app_assoc; try done; by apply As_native_kind.

Lemma Op2_Process_general RETURN_T ARG1_T ARG2_T nm f child1 child2
    s a1 s1 a2 s2 sym1 sym2 x1 x2 :
  Process child1 s = Ok (Some a1, s1) ->
  Process child2 s1 = Ok (Some a2, s2) ->
  heap s2 !! a1 = Some sym1 -> heap s2 !! a2 = Some sym2 ->
  As ARG1_T sym1 = Ok x1 -> As ARG2_T sym2 = Ok x2 ->
  (a1 = a2 -> is_temporary sym1 = false) ->
  exists r s' out,
    Process (ASTNode_Op2 RETURN_T ARG1_T ARG2_T nm (Some f) [child1; child2]) s
      = Ok (Some r, s') /\
    heap s' !! r = Some out /\ is_temporary out = true /\
    As RETURN_T out = Ok (f x1 x2) /\
    heap s' =
      <[r := out]>
        ((if is_temporary sym2 then delete a2 else id)
           ((if is_temporary sym1 then delete a1 else id) (heap s2))) /\
    log s' =
      log s2 ++ (if is_temporary sym1 then [EvDelete a1] else [])
             ++ (if is_temporary sym2 then [EvDelete a2] else [])
             ++ [EvNew r].
Proof.
  intros H1 H2 Ha1 Ha2 Hx1 Hx2 Hne.
  pose proof (As_not_scope _ _ _ Hx1) as Hk1.
  pose proof (As_not_scope _ _ _ Hx2) as Hk2.
  cbn [Process].
  rewrite (bind_Ok _ _ _ _ _ H1), (bind_Ok _ _ _ _ _ H2).
  rewrite (bind_Ok _ _ _ _ _ (deref_live _ _ _ Ha1)).
  rewrite (bind_Ok _ _ _ _ _ (deref_live _ _ _ Ha2)).
  rewrite (bind_Ok _ _ _ _ _ (lift_Ok _ _ _ Hx1)).
  rewrite (bind_Ok _ _ _ _ _ (lift_Ok _ _ _ Hx2)).
  unfold bound. unfold bind at 1. unfold ret at 1.
  destruct (is_temporary sym1) eqn:Ht1.
  - rewrite (bind_Ok _ _ _ _ _
      (eq_trans (delete_if_temporary_release _ _ _ Ha1 Ht1)
                (Delete_plain _ _ _ Ha1 Hk1))).
    assert (Hne' : a1 ≠ a2) by (intros E; specialize (Hne E); congruence).
    set (s3 := add_event _ _).
    assert (Ha2' : heap s3 !! a2 = Some sym2).
    { subst s3. cbn. by rewrite lookup_delete_ne. }
    destruct (is_temporary sym2) eqn:Ht2.
    + rewrite (bind_Ok _ _ _ _ _
        (eq_trans (delete_if_temporary_release _ _ _ Ha2' Ht2)
                  (Delete_plain _ _ _ Ha2' Hk2))).
      finish_Op2.
    + rewrite (bind_Ok _ _ _ _ _ (delete_if_temporary_keep _ _ _ Ha2' Ht2)).
      finish_Op2.
  - rewrite (bind_Ok _ _ _ _ _ (delete_if_temporary_keep _ _ _ Ha1 Ht1)).
    destruct (is_temporary sym2) eqn:Ht2.
    + rewrite (bind_Ok _ _ _ _ _
        (eq_trans (delete_if_temporary_release _ _ _ Ha2 Ht2)
                  (Delete_plain _ _ _ Ha2 Hk2))).
      finish_Op2.
    + rewrite (bind_Ok _ _ _ _ _ (delete_if_temporary_keep _ _ _ Ha2 Ht2)).
      finish_Op2.
Qed.

(** C5. A binary operator node with two children and a bound closure: when
    the children, processed left then right, return live Symbols that coerce
    to the closure's argument types, [Process] returns a new temporary
    Symbol whose coercion to the return type is the closure applied to the
    two coerced values; each input that is temporary has been deleted
    (first, then second) and the other Symbols are as the children left
    them.  [3 + 4] over numbers is a temporary of value 7 and ["a" + "b"]
    over strings is a temporary of value ["ab"]. *)
Theorem Op2_Process :
  (forall RETURN_T ARG1_T ARG2_T nm f child1 child2
          s a1 s1 a2 s2 sym1 sym2 x1 x2,
     Process child1 s = Ok (Some a1, s1) ->
     Process child2 s1 = Ok (Some a2, s2) ->
     heap s2 !! a1 = Some sym1 -> heap s2 !! a2 = Some sym2 ->
     As ARG1_T sym1 = Ok x1 -> As ARG2_T sym2 = Ok x2 ->
     (a1 = a2 -> is_temporary sym1 = false) ->
     exists r s' out,
       Process (ASTNode_Op2 RETURN_T ARG1_T ARG2_T nm (Some f) [child1; child2]) s
         = Ok (Some r, s') /\
       heap s' !! r = Some out /\ is_temporary out = true /\
       As RETURN_T out = Ok (f x1 x2) /\
       heap s' =
         <[r := out]>
           ((if is_temporary sym2 then delete a2 else id)
              ((if is_temporary sym1 then delete a1 else id) (heap s2))) /\
       log s' =
         log s2 ++ (if is_temporary sym1 then [EvDelete a1] else [])
                ++ (if is_temporary sym2 then [EvDelete a2] else [])
                ++ [EvNew r]) /\
  (exists tree s r s' out,
     three_plus_four root_state = Ok (tree, s) /\
     Process tree s = Ok (Some r, s') /\
     heap s' !! r = Some out /\ is_temporary out = true /\
     AsDouble out = Ok 7%float) /\
  (exists tree s r s' out,
     a_plus_b root_state = Ok (tree, s) /\
     Process tree s = Ok (Some r, s') /\
     heap s' !! r = Some out /\ is_temporary out = true /\
     AsString out = Ok "ab").
Proof.
  split; [|split].
  - intros. by eapply Op2_Process_general.
  - eexists _, _, _, _, _. repeat split; vm_compute; reflexivity.
  - eexists _, _, _, _, _. repeat split; vm_compute; reflexivity.
Qed.

(** ** Assignment *)

Lemma Assign_Process_general child1 child2 s l s1 r s2 lsym rsym lsym' :
  Process child1 s = Ok (Some l, s1) ->
  Process child2 s1 = Ok (Some r, s2) ->
  heap s2 !! l = Some lsym -> is_temporary lsym = false ->
  heap s2 !! r = Some rsym ->
  CopyValue lsym rsym = Ok lsym' ->
  exists s',
    Process (ASTNode_Assign [child1; child2]) s = Ok (Some l, s') /\
    heap s' !! l = Some lsym' /\
    is_temporary lsym' = false /\ name lsym' = name lsym /\
    heap s' =
      (if is_temporary rsym then delete r else id) (<[l := lsym']> (heap s2)) /\
    log s' = log s2 ++ (if is_temporary rsym then [EvDelete r] else []).
Proof.
  intros H1 H2 Hl Htl Hr Hcopy.
  pose proof (CopyValue_inv _ _ _ Hcopy)
    as (Hname & _ & _ & Htemp & _ & _ & Hkr & _ & _).
  cbn [Process].
  rewrite (bind_Ok _ _ _ _ _ H1), (bind_Ok _ _ _ _ _ H2).
  rewrite (bind_Ok _ _ _ _ _ (deref_live _ _ _ Hl)).
  rewrite (bind_Ok _ _ _ _ _ (deref_live _ _ _ Hr)).
  rewrite (bind_Ok _ _ _ _ _ (lift_Ok _ _ _ Hcopy)).
  unfold store at 1. unfold bind at 1.
  set (s3 := set_heap _ s2).
  assert (Hl3 : heap s3 !! l = Some lsym').
  { subst s3. cbn. by rewrite lookup_insert_eq. }
  destruct (is_temporary rsym) eqn:Htr.
  - assert (Hne : l ≠ r) by (intros ->; congruence).
    assert (Hr3 : heap s3 !! r = Some rsym).
    { subst s3. cbn. by rewrite lookup_insert_ne. }
    rewrite (bind_Ok _ _ _ _ _
      (eq_trans (delete_if_temporary_release _ _ _ Hr3 Htr)
                (Delete_plain _ _ _ Hr3 Hkr))).
    eexists. split; [reflexivity|]. cbn.
    rewrite lookup_delete_ne by done. rewrite lookup_insert_eq.
    repeat split; congruence.
  - assert (exists rsym', heap s3 !! r = Some rsym' /\ is_temporary rsym' = false)
      as (rsym' & Hr3 & Htr').
    { subst s3. cbn. destruct (decide (l = r)) as [->|Hne].
      - rewrite lookup_insert_eq. eexists. split; [done|]. congruence.
      - rewrite lookup_insert_ne by done. eauto. }
    rewrite (bind_Ok _ _ _ _ _ (delete_if_temporary_keep _ _ _ Hr3 Htr')).
    eexists. split; [reflexivity|]. cbn.
    rewrite app_nil_r. repeat split; try done. congruence.
Qed.

(** C4. An Assign node whose left child returns a live, non-temporary
    Symbol: [Process] runs the left child, then the right child in the state
    the left one left, replaces the left Symbol by the result of [CopyValue]
    from the right one (same name, still non-temporary), deletes the right
    result exactly when it is temporary, and returns the pointer of the left
    Symbol.  With a numeric variable X that holds 5, [X = 9] returns the
    pointer that the lookup of X returns, and X then holds 9. *)
Theorem Assign_Process :
  (forall child1 child2 s l s1 r s2 lsym rsym lsym',
     Process child1 s = Ok (Some l, s1) ->
     Process child2 s1 = Ok (Some r, s2) ->
     heap s2 !! l = Some lsym -> is_temporary lsym = false ->
     heap s2 !! r = Some rsym ->
     CopyValue lsym rsym = Ok lsym' ->
     exists s',
       Process (ASTNode_Assign [child1; child2]) s = Ok (Some l, s') /\
       heap s' !! l = Some lsym' /\
       is_temporary lsym' = false /\ name lsym' = name lsym /\
       heap s' =
         (if is_temporary rsym then delete r else id)
           (<[l := lsym']> (heap s2)) /\
       log s' = log s2 ++ (if is_temporary rsym then [EvDelete r] else [])) /\
  (exists X tree s before s' after,
     X_is_9 root_state = Ok ((X, tree), s) /\
     heap s !! X = Some before /\ AsDouble before = Ok 5%float /\
     Process tree s = Ok (Some X, s') /\
     (forall fuel scan,
        LookupSymbol (S fuel) 0 "X" scan s' = Ok (Some X, s')) /\
     heap s' !! X = Some after /\ AsDouble after = Ok 9%float /\
     is_temporary after = false).
Proof.
  split.
  - intros. by eapply Assign_Process_general.
  - eexists _, _, _, _, _, _.
    split; [vm_compute; reflexivity|].
    split; [vm_compute; reflexivity|].
    split; [vm_compute; reflexivity|].
    split; [vm_compute; reflexivity|].
    split; [intros fuel scan; destruct scan; vm_compute; reflexivity|].
    repeat split; vm_compute; reflexivity.
Qed.

(** ** Event *)

Lemma setup_calls_app l1 l2 :
  setup_calls (l1 ++ l2) = setup_calls l1 + setup_calls l2.
Proof. unfold setup_calls. by rewrite List.filter_app, length_app. Qed.

Lemma Event_Process_general nm f action arguments s r s' :
  Process (ASTNode_Event nm (Some f) (action :: arguments)) s = Ok (r, s') <->
  r = None /\
  exists arg_entries s1,
    arguments_run arguments s arg_entries s1 /\
    s' = add_event (EvSetup f action arg_entries) s1.
Proof.
  cbn [Process]. split.
  - intros Hp. apply bind_inv in Hp as (args & s1 & Hargs & Hp).
    injection Hp as <- <-. split; [done|]. exists args, s1.
    by rewrite <- Process_arguments_run.
  - intros (-> & args & s1 & Hargs & ->).
    apply Process_arguments_run in Hargs.
    by rewrite (bind_Ok _ _ _ _ _ Hargs).
Qed.

(** C3. [Process] of an Event node with a bound setup closure returns the
    null pointer after it has processed the children after the first from
    left to right and then called the setup closure once, with the first
    child as a tree and the results of the others: the state is the one the
    arguments left, with that one call added to the trace.  The first child
    has no part in the run: with any other tree in its place, even one whose
    [Process] fails, the run is the same but for the tree handed to the
    closure.  For [@OnUpdate(10) DoThing();] the closure receives the call
    node and the pointer of a Symbol of value 10, and nothing is allocated,
    while [Process] of the call node does allocate. *)
Theorem Event_Process :
  (forall nm f action arguments s r s',
     Process (ASTNode_Event nm (Some f) (action :: arguments)) s = Ok (r, s') <->
     r = None /\
     exists arg_entries s1,
       arguments_run arguments s arg_entries s1 /\
       heap s' = heap s1 /\ host_objects s' = host_objects s1 /\
       log s' = log s1 ++ [EvSetup f action arg_entries] /\
       setup_calls (log s') = S (setup_calls (log s1))) /\
  (forall nm f action action' arguments s r s',
     Process (ASTNode_Event nm (Some f) (action :: arguments)) s = Ok (r, s') ->
     exists arg_entries s1,
       s' = add_event (EvSetup f action arg_entries) s1 /\
       Process (ASTNode_Event nm (Some f) (action' :: arguments)) s =
         Ok (r, add_event (EvSetup f action' arg_entries) s1)) /\
  (exists action tree s ten sym s',
     on_update root_state = Ok ((action, tree), s) /\
     Process tree s = Ok (None, s') /\
     heap s' = heap s /\
     log s' = log s ++ [EvSetup 0 action [Some ten]] /\
     heap s' !! ten = Some sym /\ AsDouble sym = Ok 10%float /\
     allocations (log s') = allocations (log s) /\
     exists t s'', Process action s = Ok (Some t, s'') /\
                   log s'' = log s ++ [EvNew t]).
Proof.
  split; [|split].
  - intros nm f action arguments s r s'. rewrite Event_Process_general.
    split.
    + intros (-> & args & s1 & Hargs & ->). split; [done|].
      exists args, s1. repeat split; try done.
      unfold add_event. cbn [log]. rewrite setup_calls_app. cbn. lia.
    + intros (-> & args & s1 & Hargs & Hh & Ho & Hl & _). split; [done|].
      exists args, s1. split; [done|]. destruct s'. cbn in *. by subst.
  - intros nm f action action' arguments s r s' Hp.
    apply Event_Process_general in Hp as (-> & args & s1 & Hargs & ->).
    exists args, s1. split; [done|]. apply Event_Process_general. eauto.
  - eexists _, _, _, _, _, _.
    split; [vm_compute; reflexivity|].
    split; [vm_compute; reflexivity|].
    split; [reflexivity|].
    split; [vm_compute; reflexivity|].
    split; [vm_compute; reflexivity|].
    split; [vm_compute; reflexivity|].
    split; [vm_compute; reflexivity|].
    eexists _, _. split; vm_compute; reflexivity.
Qed.

(** ** Call *)

Lemma for_each_cons {A} (body : A -> M unit) x xs s :
  for_each body (x :: xs) s =
    match body x s with
    | Ok (_, s1) => for_each body xs s1
    | Err e => Err e
    end.
Proof. cbn [for_each]. unfold bind. by destruct (body x s) as [[[] s1]|e]. Qed.

Lemma arg_views_inv args s vs s' :
  arg_views args s = Ok (vs, s') ->
  s' = s /\ Forall (fun p => exists a sym, p = Some a /\ heap s !! a = Some sym) args.
Proof.
  revert vs. induction args as [|p args IH]; intros vs.
  - intros [= <- <-]. by split.
  - cbn [arg_views]. intros Hv.
    apply bind_inv in Hv as (sym & s1 & Hp & Hv).
    apply deref_inv in Hp as (a & -> & Ha & ->).
    apply bind_inv in Hv as (vs' & s2 & Hrest & Hv).
    injection Hv as <- <-. apply IH in Hrest as [-> Hall].
    split; [done|]. constructor; eauto.
Qed.

Lemma Symbol_Call_inv fn args s result s' :
  Symbol_Call fn args s = Ok (result, s') ->
  exists a fsym f r,
    fn = Some a /\ heap s !! a = Some fsym /\ kind fsym = Symbol_Function f /\
    Forall (fun p => exists b sym, p = Some b /\ heap s !! b = Some sym) args /\
    result = Some (fresh_addr s) /\
    s' = add_event (EvNew (fresh_addr s))
           (set_heap (<[fresh_addr s := temp_Symbol (result_kind r)]> (heap s)) s).
Proof.
  unfold Symbol_Call. intros Hc.
  apply bind_inv in Hc as (fsym & s1 & Hfn & Hc).
  apply deref_inv in Hfn as (a & -> & Ha & ->).
  destruct (kind fsym) as [| |f|] eqn:Hk; try done.
  apply bind_inv in Hc as (vs & s1 & Hvs & Hc).
  apply arg_views_inv in Hvs as [-> Hall].
  apply bind_inv in Hc as (r & s1 & Hr & Hc).
  unfold lift in Hr. destruct (f vs) as [r0|]; [|done]. injection Hr as <- <-.
  injection Hc as <- <-. by exists a, fsym, f, r0.
Qed.

(** What the loop [for (auto arg : args) if (arg->IsTemporary())
    arg.Delete();] leaves when the temporaries among [args] are not scopes. *)
Lemma release_arguments args : forall s s',
  for_each delete_if_temporary args s = Ok (tt, s') ->
  (forall p sym, Some p ∈ args -> heap s !! p = Some sym ->
     is_temporary sym = true -> IsScope sym = false) ->
  heap s' ⊆ heap s /\
  (forall a, Some a ∉ args -> heap s' !! a = heap s !! a) /\
  (forall a sym, heap s !! a = Some sym -> is_temporary sym = false ->
     heap s' !! a = Some sym) /\
  (forall a sym, Some a ∈ args -> heap s !! a = Some sym ->
     is_temporary sym = true -> heap s' !! a = None) /\
  exists released,
    log s' = log s ++ map EvDelete released /\
    Forall (fun p => Some p ∈ args /\
              exists sym, heap s !! p = Some sym /\ is_temporary sym = true)
           released.
Proof.
  induction args as [|p args IH]; intros s s'.
  - intros [= <-] _. repeat split; try done.
    + intros a sym Hin. by apply elem_of_nil in Hin.
    + exists []. by rewrite app_nil_r.
  - rewrite for_each_cons.
    destruct (delete_if_temporary p s) as [[u s1]|e] eqn:Hd; [|done].
    intros Hrest Hplain.
    apply delete_if_temporary_inv in Hd as (a & sym & -> & Ha & Hd).
    destruct (is_temporary sym) eqn:Ht.
    + rewrite (Delete_plain _ _ _ Ha) in Hd
        by (eapply Hplain; [left|done..]).
      injection Hd as _ <-.
      set (s1 := add_event _ _) in *.
      assert (Hsub : heap s1 ⊆ heap s) by apply delete_subseteq.
      destruct (IH _ _ Hrest) as (Hsub' & Hframe & Hkeep & Hgone & rel & Hlog & Hrel).
      { intros q qsym Hin Hq. eapply Hplain; [by right|].
        by eapply lookup_weaken. }
      split; [by etrans|]. split; [|split; [|split]].
      * intros b Hb. apply not_elem_of_cons in Hb as [Hne Hb].
        rewrite Hframe by done. subst s1. cbn.
        apply lookup_delete_ne. congruence.
      * intros b bsym Hb Hbt. apply Hkeep; [|done]. subst s1. cbn.
        rewrite lookup_delete_ne; [done|]. intros ->. congruence.
      * intros b bsym Hin Hb Hbt. destruct (decide (b = a)) as [->|Hne].
        -- eapply lookup_weaken_None; [|exact Hsub']. subst s1. cbn.
           apply lookup_delete_eq.
        -- apply elem_of_cons in Hin as [?|Hin]; [congruence|].
           eapply Hgone; [done| |done]. subst s1. cbn.
           by rewrite lookup_delete_ne.
      * exists (a :: rel). split.
        { rewrite Hlog. subst s1. cbn. by rewrite <- app_assoc. }
        constructor; [split; [left|eauto]|].
        eapply Forall_impl; [exact Hrel|]. cbn.
        intros q [Hin (qsym & Hq & Hqt)]. split; [by right|].
        exists qsym. split; [|done]. by eapply lookup_weaken.
    + subst s1.
      destruct (IH _ _ Hrest) as (Hsub' & Hframe & Hkeep & Hgone & rel & Hlog & Hrel).
      { intros q qsym Hin. eapply Hplain. by right. }
      split; [done|]. split; [|split; [|split]].
      * intros b Hb. apply not_elem_of_cons in Hb as [_ Hb]. by apply Hframe.
      * done.
      * intros b bsym Hin Hb Hbt.
        apply elem_of_cons in Hin as [[= ->]|Hin]; [congruence|].
        by eapply Hgone.
      * exists rel. split; [done|].
        eapply Forall_impl; [exact Hrel|]. cbn.
        intros q [Hin Hq]. split; [by right|done].
Qed.

Lemma Call_Process_general callee arguments s result s' :
  Process (ASTNode_Call (callee :: arguments)) s = Ok (result, s') ->
  exists fn s1 args s2 s3 a fsym,
    Process callee s = Ok (fn, s1) /\
    arguments_run arguments s1 args s2 /\
    Symbol_Call fn args s2 = Ok (result, s3) /\
    fn = Some a /\ heap s3 !! a = Some fsym /\
    for_each delete_if_temporary args s3 = Ok (tt, s') /\
    ((forall p sym, Some p ∈ args -> heap s3 !! p = Some sym ->
        is_temporary sym = true -> IsScope sym = false) ->
     (fn ∉ args -> heap s' !! a = Some fsym) /\
     (forall p sym, Some p ∈ args -> heap s3 !! p = Some sym ->
        is_temporary sym = true -> heap s' !! p = None) /\
     exists released,
       log s' = log s3 ++ map EvDelete released /\
       Forall (fun p => Some p ∈ args) released).
Proof.
  cbn [Process]. intros Hp.
  apply bind_inv in Hp as (fn & s1 & Hcallee & Hp).
  apply bind_inv in Hp as (args & s2 & Hargs & Hp).
  apply bind_inv in Hp as (res & s3 & Hcall & Hp).
  apply bind_inv in Hp as ([] & s4 & Hrel & Hp).
  injection Hp as <- <-.
  pose proof (Symbol_Call_inv _ _ _ _ _ Hcall)
    as (a & fsym & f & r & -> & Ha & _ & _ & _ & Hs3).
  assert (Ha3 : heap s3 !! a = Some fsym).
  { rewrite Hs3. cbn. rewrite lookup_insert_ne; [done|].
    intros E. pose proof (fresh_addr_free s2) as Hf. rewrite E in Hf. congruence. }
  exists (Some a), s1, args, s2, s3, a, fsym.
  split; [done|]. split; [by apply Process_arguments_run|].
  split; [done|]. split; [done|]. split; [done|]. split; [done|].
  intros Hplain.
  destruct (release_arguments _ _ _ Hrel Hplain)
    as (_ & Hframe & _ & Hgone & rel & Hlog & Hall).
  split; [|split].
  - intros Hnotin. by rewrite Hframe.
  - done.
  - exists rel. split; [done|]. eapply Forall_impl; [exact Hall|].
    by intros q [? _].
Qed.

(** C10. [Process] of a Call node processes the callee child, then the
    argument children from left to right, calls the callee on the argument
    results and then runs the release loop over the argument results only.
    When the temporaries among these are not scopes, the deallocations of
    the loop are all of argument results, every argument result that is
    temporary is gone afterwards, and the callee Symbol, unless it is also an
    argument result, is afterwards as the call left it, temporary or not.
    In [MakeThing()(1 + 2)] the callee result is a temporary function: after
    [Process] it is still live and still temporary, and the trace holds its
    allocation and no deallocation of it. *)
Theorem Call_releases_arguments_only :
  (forall callee arguments s result s',
     Process (ASTNode_Call (callee :: arguments)) s = Ok (result, s') ->
     exists fn s1 args s2 s3 a fsym,
       Process callee s = Ok (fn, s1) /\
       arguments_run arguments s1 args s2 /\
       Symbol_Call fn args s2 = Ok (result, s3) /\
       fn = Some a /\ heap s3 !! a = Some fsym /\
       for_each delete_if_temporary args s3 = Ok (tt, s') /\
       ((forall p sym, Some p ∈ args -> heap s3 !! p = Some sym ->
           is_temporary sym = true -> IsScope sym = false) ->
        (fn ∉ args -> heap s' !! a = Some fsym) /\
        (forall p sym, Some p ∈ args -> heap s3 !! p = Some sym ->
           is_temporary sym = true -> heap s' !! p = None) /\
        exists released,
          log s' = log s3 ++ map EvDelete released /\
          Forall (fun p => Some p ∈ args) released)) /\
  (exists callee sum s t s1 tsym r s' a,
     call_of_call root_state = Ok (ASTNode_Call [callee; sum], s) /\
     Process callee s = Ok (Some t, s1) /\
     heap s1 !! t = Some tsym /\ is_temporary tsym = true /\
     Process (ASTNode_Call [callee; sum]) s = Ok (Some r, s') /\
     heap s' !! t = Some tsym /\
     log s' = log s ++ [EvNew t; EvNew a; EvNew r; EvDelete a] /\
     t <> a).
Proof.
  split.
  - intros. by eapply Call_Process_general.
  - eexists _, _, _, _, _, _, _, _, _.
    split; [vm_compute; reflexivity|].
    split; [vm_compute; reflexivity|].
    split; [vm_compute; reflexivity|].
    split; [reflexivity|].
    split; [vm_compute; reflexivity|].
    split; [vm_compute; reflexivity|].
    split; [vm_compute; reflexivity|].
    done.
Qed.

(** ** The ownership discipline *)

Lemma ASTNode_children_ind (P : ASTNode -> Prop) :
  (forall p own, P (ASTNode_Leaf p own)) ->
  (forall sp children, Forall P children -> P (ASTNode_Block sp children)) ->
  (forall nm f children, Forall P children -> P (ASTNode_Math1 nm f children)) ->
  (forall R A1 A2 nm f children,
     Forall P children -> P (ASTNode_Op2 R A1 A2 nm f children)) ->
  (forall children, Forall P children -> P (ASTNode_Assign children)) ->
  (forall children, Forall P children -> P (ASTNode_Call children)) ->
  (forall nm f children, Forall P children -> P (ASTNode_Event nm f children)) ->
  forall n, P n.
Proof.
  intros HLeaf HBlock HMath1 HOp2 HAssign HCall HEvent.
  fix IH 1. intros n.
  destruct n as [p own|sp children|nm f children|R A1 A2 nm f children
                |children|children|nm f children].
  - apply HLeaf.
  - apply HBlock. induction children; constructor; [apply IH|assumption].
  - apply HMath1. induction children; constructor; [apply IH|assumption].
  - apply HOp2. induction children; constructor; [apply IH|assumption].
  - apply HAssign. induction children; constructor; [apply IH|assumption].
  - apply HCall. induction children; constructor; [apply IH|assumption].
  - apply HEvent. induction children; constructor; [apply IH|assumption].
Qed.

Lemma lift_inv {A} (o : outcome A) s a s' :
  lift o s = Ok (a, s') -> o = Ok a /\ s' = s.
Proof. unfold lift. destruct o; [|done]. by intros [= <- <-]. Qed.

Lemma bound_inv {A} (f : option A) s g s' :
  bound f s = Ok (g, s') -> f = Some g /\ s' = s.
Proof. unfold bound. destruct f; [|done]. by intros [= <- <-]. Qed.

Lemma handed_since_later s s1 s2 p :
  log s1 `prefix_of` log s2 -> handed_since s s1 p -> handed_since s s2 p.
Proof.
  intros [k' Hk'] (k & Hk & f & action & args & Hin & Hp).
  exists (k ++ k'). split; [by rewrite Hk', Hk, app_assoc|].
  exists f, action, args. split; [|done]. apply elem_of_app. by left.
Qed.

Lemma handed_since_earlier s s1 s2 p :
  log s `prefix_of` log s1 -> handed_since s1 s2 p -> handed_since s s2 p.
Proof.
  intros [k' Hk'] (k & Hk & f & action & args & Hin & Hp).
  exists (k' ++ k). split; [by rewrite Hk, Hk', app_assoc|].
  exists f, action, args. split; [|done]. apply elem_of_app. by right.
Qed.

Lemma disciplined_refl s X : no_temporary_scope s -> disciplined s X s.
Proof. intros Hs. split; [done|eauto|done|eauto]. Qed.

Lemma disciplined_weaken s (X Y : addr -> Prop) s' :
  (forall p, X p -> Y p) -> disciplined s X s' -> disciplined s Y s'.
Proof.
  intros HXY [Hs Hn Hl Ht]. split; [done..|].
  intros p sym' Hp Htemp. destruct (Ht _ _ Hp Htemp) as [?|[?|?]]; eauto.
Qed.

Lemma disciplined_trans s X s1 Y s2 :
  disciplined s X s1 -> disciplined s1 Y s2 ->
  disciplined s (fun p => X p \/ Y p) s2.
Proof.
  intros [Hs1 Hn1 Hl1 Ht1] [Hs2 Hn2 Hl2 Ht2]. split; [done| |by etrans|].
  - intros p sym Hp Hnt. destruct (Hn1 _ _ Hp Hnt) as (sym1 & Hp1 & Hnt1). eauto.
  - intros p sym2 Hp2 Htemp.
    destruct (Ht2 _ _ Hp2 Htemp) as [(sym1 & Hp1 & Htemp1)|[?|?]]; [|by eauto|].
    + destruct (Ht1 _ _ Hp1 Htemp1) as [?|[?|?]]; eauto.
      right. right. by eapply handed_since_later.
    + right. right. by eapply handed_since_earlier.
Qed.

Lemma disciplined_release s X s1 a u s2 :
  disciplined s X s1 ->
  delete_if_temporary (Some a) s1 = Ok (u, s2) ->
  disciplined s (fun p => X p /\ p <> a) s2.
Proof.
  intros [Hs1 Hn1 Hl1 Ht1] Hd.
  apply delete_if_temporary_inv in Hd as (a' & sym & [= <-] & Ha & Hd).
  destruct (is_temporary sym) eqn:Htemp.
  - rewrite (Delete_plain _ _ _ Ha) in Hd by (by eapply Hs1).
    injection Hd as _ <-. split.
    + unfold no_temporary_scope. cbn. by apply map_Forall_delete.
    + intros p psym Hp Hnt. destruct (Hn1 _ _ Hp Hnt) as (sym1 & Hp1 & Hnt1).
      exists sym1. split; [|done]. cbn. rewrite lookup_delete_ne; [done|].
      intros ->. congruence.
    + cbn. etrans; [exact Hl1|]. by apply prefix_app_r.
    + cbn. intros p sym' Hp Htemp'.
      apply lookup_delete_Some in Hp as [Hne Hp].
      destruct (Ht1 _ _ Hp Htemp') as [?|[?|?]]; eauto.
      right. right. eapply handed_since_later; [|done]. cbn. by apply prefix_app_r.
  - subst s2. split; [done..|].
    intros p sym' Hp Htemp'.
    destruct (Ht1 _ _ Hp Htemp') as [?|[?|?]]; eauto.
    right. left. split; [done|]. intros ->. congruence.
Qed.

Lemma disciplined_alloc s X s1 k :
  disciplined s X s1 -> IsScope (temp_Symbol k) = false ->
  disciplined s (fun p => X p \/ p = fresh_addr s1)
    (add_event (EvNew (fresh_addr s1))
       (set_heap (<[fresh_addr s1 := temp_Symbol k]> (heap s1)) s1)).
Proof.
  intros [Hs1 Hn1 Hl1 Ht1] Hk. pose proof (fresh_addr_free s1) as Hfresh. split.
  - unfold no_temporary_scope. cbn. by apply map_Forall_insert_2.
  - intros p psym Hp Hnt. destruct (Hn1 _ _ Hp Hnt) as (sym1 & Hp1 & Hnt1).
    exists sym1. split; [|done]. cbn. rewrite lookup_insert_ne; [done|].
    intros E. rewrite E in Hfresh. congruence.
  - cbn. etrans; [exact Hl1|]. by apply prefix_app_r.
  - cbn. intros p sym' Hp Htemp'.
    destruct (decide (p = fresh_addr s1)) as [->|Hne]; [by eauto|].
    rewrite lookup_insert_ne in Hp by done.
    destruct (Ht1 _ _ Hp Htemp') as [?|[?|?]]; eauto.
    right. right. eapply handed_since_later; [|done]. cbn. by apply prefix_app_r.
Qed.

Lemma disciplined_store s X s1 l lsym lsym' :
  disciplined s X s1 -> heap s1 !! l = Some lsym ->
  is_temporary lsym' = is_temporary lsym -> IsScope lsym' = false ->
  disciplined s X (set_heap (<[l := lsym']> (heap s1)) s1).
Proof.
  intros [Hs1 Hn1 Hl1 Ht1] Hl Hflag Hk. split.
  - unfold no_temporary_scope. cbn. by apply map_Forall_insert_2.
  - intros p psym Hp Hnt. destruct (Hn1 _ _ Hp Hnt) as (sym1 & Hp1 & Hnt1).
    cbn. destruct (decide (p = l)) as [->|Hne].
    + rewrite lookup_insert_eq. eexists. split; [done|]. congruence.
    + rewrite lookup_insert_ne by done. eauto.
  - done.
  - cbn. intros p sym' Hp Htemp'. destruct (decide (p = l)) as [->|Hne].
    + rewrite lookup_insert_eq in Hp. injection Hp as <-.
      eapply Ht1; [done|]. congruence.
    + rewrite lookup_insert_ne in Hp by done. eauto.
Qed.

Lemma disciplined_setup s (X : addr -> Prop) s1 f action args :
  disciplined s X s1 -> (forall p, X p -> Some p ∈ args) ->
  disciplined s (fun _ => False) (add_event (EvSetup f action args) s1).
Proof.
  intros [Hs1 Hn1 Hl1 Ht1] HX. split; [done|done| |].
  - cbn. etrans; [exact Hl1|]. by apply prefix_app_r.
  - cbn. intros p sym' Hp Htemp'.
    destruct (Ht1 _ _ Hp Htemp') as [?|[?|?]]; eauto.
    + right. right. destruct Hl1 as [k Hk]. exists (k ++ [EvSetup f action args]).
      split; [cbn; by rewrite Hk, app_assoc|].
      exists f, action, args. split; [|by apply HX].
      apply elem_of_app. right. by left.
    + right. right. eapply handed_since_later; [|done]. cbn. by apply prefix_app_r.
Qed.

Lemma release_arguments_disciplined args : forall s X s3 s',
  disciplined s X s3 ->
  for_each delete_if_temporary args s3 = Ok (tt, s') ->
  disciplined s (fun p => X p /\ Some p ∉ args) s'.
Proof.
  induction args as [|q args IH]; intros s X s3 s' HD.
  - intros [= <-]. eapply disciplined_weaken; [|exact HD].
    intros p HX. split; [done|]. apply not_elem_of_nil.
  - rewrite for_each_cons.
    destruct (delete_if_temporary q s3) as [[u s4]|e] eqn:Hd; [|done].
    intros Hrest.
    pose proof (delete_if_temporary_inv _ _ _ _ Hd) as (a & _ & -> & _).
    pose proof (disciplined_release _ _ _ _ _ _ HD Hd) as HD'.
    eapply disciplined_weaken; [|exact (IH _ _ _ _ HD' Hrest)].
    cbn. intros p [[HX Hne] Hnotin]. split; [done|].
    apply not_elem_of_cons. split; [congruence|done].
Qed.

Lemma Process_arguments_disciplined children :
  Forall node_disciplined children ->
  forallb named_callees children = true ->
  forall s args s', no_temporary_scope s ->
    Process_arguments Process children s = Ok (args, s') ->
    disciplined s (fun p => Some p ∈ args) s'.
Proof.
  induction 1 as [|node rest Hnode _ IH]; intros Hnamed s args s' Hs.
  - intros [= <- <-]. by apply disciplined_refl.
  - cbn in Hnamed. apply andb_true_iff in Hnamed as [Hn Hrest].
    cbn [Process_arguments]. intros Hp.
    apply bind_inv in Hp as (arg & s1 & Harg & Hp).
    apply bind_inv in Hp as (args' & s2 & Hargs & Hp).
    injection Hp as <- <-.
    pose proof (Hnode Hn _ _ _ Hs Harg) as HD1.
    pose proof (IH Hrest _ _ _ (still_no_temporary_scope _ _ _ HD1) Hargs) as HD2.
    eapply disciplined_weaken; [|exact (disciplined_trans _ _ _ _ _ HD1 HD2)].
    cbn. intros p [->|Hin]; [left|by right].
Qed.

Lemma Process_statements_disciplined children :
  Forall node_disciplined children ->
  forallb named_callees children = true ->
  forall s s', no_temporary_scope s ->
    Process_statements Process children s = Ok (tt, s') ->
    disciplined s (fun _ => False) s'.
Proof.
  induction 1 as [|node rest Hnode _ IH]; intros Hnamed s s' Hs.
  - intros [= <-]. by apply disciplined_refl.
  - cbn in Hnamed. apply andb_true_iff in Hnamed as [Hn Hrest].
    rewrite Process_statements_cons.
    destruct (Process node s) as [[[a|] s1]|e] eqn:Hout; [| |done].
    + pose proof (Hnode Hn _ _ _ Hs Hout) as HD1.
      destruct (delete_if_temporary (Some a) s1) as [[u s2]|e] eqn:Hd; [|done].
      intros Hp.
      pose proof (disciplined_release _ _ _ _ _ _ HD1 Hd) as HD2.
      pose proof (IH Hrest _ _ (still_no_temporary_scope _ _ _ HD2) Hp) as HD3.
      eapply disciplined_weaken; [|exact (disciplined_trans _ _ _ _ _ HD2 HD3)].
      cbn. intros p [[[= ->] ?]|[]]. done.
    + intros Hp. pose proof (Hnode Hn _ _ _ Hs Hout) as HD1.
      pose proof (IH Hrest _ _ (still_no_temporary_scope _ _ _ HD1) Hp) as HD3.
      eapply disciplined_weaken; [|exact (disciplined_trans _ _ _ _ _ HD1 HD3)].
      cbn. by intros p [?|[]].
Qed.

Lemma Process_disciplined n : node_disciplined n.
Proof.
  induction n as [a own|sp children IH|nm f children IH
                 |R A1 A2 nm f children IH|children IH|children IH
                 |nm f children IH] using ASTNode_children_ind;
    intros Hnamed s r s' Hs Hp; cbn [Process named_callees] in Hp, Hnamed.
  - injection Hp as <- <-. by apply disciplined_refl.
  - apply bind_inv in Hp as ([] & s1 & Hst & Hp). injection Hp as <- <-.
    eapply disciplined_weaken;
      [|exact (Process_statements_disciplined _ IH Hnamed _ _ Hs Hst)]. done.
  - destruct children as [|child [|]]; try done.
    apply Forall_cons in IH as [IHc _].
    cbn in Hnamed. rewrite andb_true_r in Hnamed.
    apply bind_inv in Hp as (input & s1 & Hc & Hp).
    apply bind_inv in Hp as (sym & s2 & Hin & Hp).
    apply deref_inv in Hin as (a & -> & Ha & ->).
    apply bind_inv in Hp as (x & s2 & Hx & Hp).
    apply lift_inv in Hx as [Hx ->].
    apply bind_inv in Hp as (g & s2 & Hg & Hp).
    apply bound_inv in Hg as [-> ->].
    apply bind_inv in Hp as (u & s2 & Hd & Hp).
    rewrite MakeTempSymbol_eq in Hp. injection Hp as <- <-.
    pose proof (IHc Hnamed _ _ _ Hs Hc) as HD1.
    pose proof (disciplined_release _ _ _ _ _ _ HD1 Hd) as HD2.
    eapply disciplined_weaken;
      [|exact (disciplined_alloc _ _ _ (Symbol_DoubleVar (g x)) HD2 eq_refl)].
    cbn. intros p [[[= ->] ?]| -> ]; done.
  - destruct children as [|child1 [|child2 [|]]]; try done.
    apply Forall_cons in IH as [IH1 IH]. apply Forall_cons in IH as [IH2 _].
    cbn in Hnamed. rewrite andb_true_r in Hnamed.
    apply andb_true_iff in Hnamed as [Hn1 Hn2].
    apply bind_inv in Hp as (in1 & s1 & Hc1 & Hp).
    apply bind_inv in Hp as (in2 & s2 & Hc2 & Hp).
    apply bind_inv in Hp as (sym1 & s3 & Hin1 & Hp).
    apply deref_inv in Hin1 as (a1 & -> & Ha1 & ->).
    apply bind_inv in Hp as (sym2 & s3 & Hin2 & Hp).
    apply deref_inv in Hin2 as (a2 & -> & Ha2 & ->).
    apply bind_inv in Hp as (x1 & s3 & Hx1 & Hp).
    apply lift_inv in Hx1 as [Hx1 ->].
    apply bind_inv in Hp as (x2 & s3 & Hx2 & Hp).
    apply lift_inv in Hx2 as [Hx2 ->].
    apply bind_inv in Hp as (g & s3 & Hg & Hp).
    apply bound_inv in Hg as [-> ->].
    apply bind_inv in Hp as (u1 & s3 & Hd1 & Hp).
    apply bind_inv in Hp as (u2 & s4 & Hd2 & Hp).
    rewrite MakeTempSymbol_eq in Hp. injection Hp as <- <-.
    pose proof (IH1 Hn1 _ _ _ Hs Hc1) as HD1.
    pose proof (IH2 Hn2 _ _ _ (still_no_temporary_scope _ _ _ HD1) Hc2) as HD2.
    pose proof (disciplined_trans _ _ _ _ _ HD1 HD2) as HD12.
    pose proof (disciplined_release _ _ _ _ _ _ HD12 Hd1) as HD3.
    pose proof (disciplined_release _ _ _ _ _ _ HD3 Hd2) as HD4.
    eapply disciplined_weaken; [|eapply (disciplined_alloc _ _ _
      (native_kind R (g x1 x2)) HD4); by destruct R].
    cbn. intros p [[[[[= ->]|[= ->]] ?] ?]| -> ]; done.
  - destruct children as [|child1 [|child2 [|]]]; try done.
    apply Forall_cons in IH as [IH1 IH]. apply Forall_cons in IH as [IH2 _].
    cbn in Hnamed. rewrite andb_true_r in Hnamed.
    apply andb_true_iff in Hnamed as [Hn1 Hn2].
    apply bind_inv in Hp as (lhs & s1 & Hc1 & Hp).
    apply bind_inv in Hp as (rhs & s2 & Hc2 & Hp).
    apply bind_inv in Hp as (lsym & s3 & Hl & Hp).
    apply deref_inv in Hl as (l & -> & Hl & ->).
    apply bind_inv in Hp as (rsym & s3 & Hr & Hp).
    apply deref_inv in Hr as (ra & -> & Hr & ->).
    apply bind_inv in Hp as (lsym' & s3 & Hcopy & Hp).
    apply lift_inv in Hcopy as [Hcopy ->].
    apply bind_inv in Hp as (u1 & s3 & Hst & Hp).
    injection Hst as _ <-.
    apply bind_inv in Hp as (u2 & s4 & Hd & Hp).
    injection Hp as <- <-.
    pose proof (CopyValue_inv _ _ _ Hcopy)
      as (_ & _ & _ & Hflag & _ & _ & _ & Hk' & _).
    pose proof (IH1 Hn1 _ _ _ Hs Hc1) as HD1.
    pose proof (IH2 Hn2 _ _ _ (still_no_temporary_scope _ _ _ HD1) Hc2) as HD2.
    pose proof (disciplined_trans _ _ _ _ _ HD1 HD2) as HD12.
    pose proof (disciplined_store _ _ _ _ _ _ HD12 Hl Hflag Hk') as HD3.
    pose proof (disciplined_release _ _ _ _ _ _ HD3 Hd) as HD4.
    eapply disciplined_weaken; [|exact HD4].
    cbn. intros p [[[= ->]|[= ->]] ?]; done.
  - destruct children as [|callee arguments]; [done|].
    destruct callee as [fa own| | | | | |]; try done.
    apply Forall_cons in IH as [_ IHargs].
    cbn in Hnamed.
    apply bind_inv in Hp as (fn & s1 & Hc & Hp). injection Hc as <- <-.
    apply bind_inv in Hp as (args & s2 & Hargs & Hp).
    apply bind_inv in Hp as (res & s3 & Hcall & Hp).
    apply bind_inv in Hp as ([] & s4 & Hrel & Hp).
    injection Hp as <- <-.
    apply Symbol_Call_inv in Hcall
      as (a & fsym & g & out & _ & _ & _ & _ & -> & ->).
    pose proof (Process_arguments_disciplined _ IHargs Hnamed _ _ _ Hs Hargs)
      as HD1.
    assert (Hk : IsScope (temp_Symbol (result_kind out)) = false)
      by (by destruct out).
    pose proof (disciplined_alloc _ _ _ _ HD1 Hk) as HD2.
    pose proof (release_arguments_disciplined _ _ _ _ _ HD2 Hrel) as HD3.
    eapply disciplined_weaken; [|exact HD3].
    cbn. intros p [[?| -> ] ?]; done.
  - destruct children as [|action arguments]; [done|].
    apply Forall_cons in IH as [_ IHargs].
    cbn in Hnamed. apply andb_true_iff in Hnamed as [_ Hnamed].
    apply bind_inv in Hp as (args & s1 & Hargs & Hp).
    apply bind_inv in Hp as (g & s2 & Hg & Hp).
    apply bound_inv in Hg as [-> ->].
    injection Hp as <- <-.
    pose proof (Process_arguments_disciplined _ IHargs Hnamed _ _ _ Hs Hargs)
      as HD1.
    eapply disciplined_weaken;
      [|exact (disciplined_setup _ _ _ g action args HD1 (fun _ Hin => Hin))].
    done.
Qed.

(** ** Leaf *)

(** C7. Attaching a Leaf to a live Symbol records in [own_symbol] whether the
    Symbol was temporary and clears the flag, changing nothing else; a second
    attachment to the same Symbol finds the flag cleared, takes no ownership
    and changes nothing.  [Process] of the Leaf, in any state and any number
    of times, returns the pointer it wraps and leaves the state (the heap and
    the trace of allocations) as it was.  The Leaf that owns its Symbol is
    the one whose destructor deletes it.  No evaluation sets the flag again:
    a Symbol that is not temporary is still live and not temporary after
    [Process] of a tree (one whose Calls name their callee, in a state
    without temporary scopes). *)
Theorem Leaf_takes_ownership a s sym :
  heap s !! a = Some sym ->
  exists s',
    new_ASTNode_Leaf (Some a) s = Ok (ASTNode_Leaf a (is_temporary sym), s') /\
    s' = set_heap (<[a := SetTemporary false sym]> (heap s)) s /\
    (exists sym', heap s' !! a = Some sym' /\ is_temporary sym' = false /\
       kind sym' = kind sym /\ name sym' = name sym) /\
    new_ASTNode_Leaf (Some a) s' = Ok (ASTNode_Leaf a false, s') /\
    (forall own s'', Process (ASTNode_Leaf a own) s'' = Ok (Some a, s'')) /\
    (forall s'',
       Delete_node (ASTNode_Leaf a (is_temporary sym)) s'' =
         if is_temporary sym then Delete a s'' else Ok (tt, s'')) /\
    (forall n s1 sym1 r s2,
       named_callees n = true -> no_temporary_scope s1 ->
       heap s1 !! a = Some sym1 -> is_temporary sym1 = false ->
       Process n s1 = Ok (r, s2) ->
       exists sym2, heap s2 !! a = Some sym2 /\ is_temporary sym2 = false).
Proof.
  intros Ha. eexists. split; [|split; [reflexivity|]].
  { unfold new_ASTNode_Leaf.
    by rewrite (bind_Ok _ _ _ _ _ (deref_live _ _ _ Ha)). }
  set (s' := set_heap _ _).
  assert (Ha' : heap s' !! a = Some (SetTemporary false sym)).
  { subst s'. cbn. by rewrite lookup_insert_eq. }
  split; [by eexists|]. split; [|split; [|split]].
  - unfold new_ASTNode_Leaf.
    rewrite (bind_Ok _ _ _ _ _ (deref_live _ _ _ Ha')). cbn.
    unfold store, bind, ret, set_heap. subst s'. cbn.
    by rewrite insert_insert_eq.
  - done.
  - intros s''. cbn. by destruct (is_temporary sym).
  - intros n s1 sym1 r s2 Hnamed Hs1 Ha1 Ht1 Hp.
    by eapply (named_kept _ _ _ (Process_disciplined n Hnamed _ _ _ Hs1 Hp)).
Qed.

(** C2 (as amended). In a state in which no temporary is a scope, and for a
    tree in which every Call names its callee by a Leaf, [Process] releases
    no Symbol that was live and not temporary: it is still live and not
    temporary afterwards.  Every temporary that is live afterwards was a live
    temporary before, or is the Symbol [Process] returns, or was handed to a
    host setup closure by an Event node during this [Process]: an Event does
    not release its argument results.  The state after [Process] again has no temporary scope. *)
Theorem ownership_discipline n s r s' :
  named_callees n = true ->
  no_temporary_scope s ->
  Process n s = Ok (r, s') ->
  (forall p sym, heap s !! p = Some sym -> is_temporary sym = false ->
     exists sym', heap s' !! p = Some sym' /\ is_temporary sym' = false) /\
  (forall p sym', heap s' !! p = Some sym' -> is_temporary sym' = true ->
     (exists sym, heap s !! p = Some sym /\ is_temporary sym = true) \/
     r = Some p \/ exists k, log s' = log s ++ k /\ handed_over k p) /\
  no_temporary_scope s'.
Proof.
  intros Hnamed Hs Hp.
  destruct (Process_disciplined n Hnamed _ _ _ Hs Hp) as [Hs' Hn _ Ht].
  by repeat split.
Qed.

(** * Further properties *)

(** ** Scopes: lookup *)

(** X1. Without scanning, [LookupSymbol] is [GetSymbol]: the same answer
    and the same failure in every state, whatever the scope's parent. *)
Theorem LookupSymbol_no_scan fuel this nm s :
  LookupSymbol (S fuel) this nm false s = GetSymbol this nm s.
Proof.
  cbn [LookupSymbol]. unfold GetSymbol, bind.
  destruct (deref (Some this) s) as [[self s1]|e]; [|done].
  destruct (kind self); try done.
  destruct (_ !! nm); [done|]. by rewrite orb_true_r.
Qed.

(** X2. [LookupSymbol] with scanning answers with the entry of the nearest
    enclosing scope that declares the name (an inner declaration shadows an
    outer one), and with the null pointer when no scope up to the root
    declares it; a fuel of the length of the chain is enough. *)
Theorem LookupSymbol_nearest s this ts :
  scope_path s this ts ->
  forall fuel nm, length ts <= fuel ->
    LookupSymbol fuel this nm true s = Ok (first_declared nm ts, s).
Proof.
  induction 1 as [this self t o own Hthis Hk Hroot
                 |this self t o own parent ts Hthis Hk Hpar _ IH];
    intros [|fuel] nm Hlen; cbn in Hlen; try lia;
    erewrite LookupSymbol_unfold by eauto; rewrite ?Hroot, ?Hpar; cbn;
    destruct (t !! nm); try done.
  apply IH. lia.
Qed.

(** ** Scopes: declaration *)

Lemma Add_inv this nm ctor s p s' :
  Add this nm ctor s = Ok (p, s') ->
  exists self t o own,
    heap s !! this = Some self /\ kind self = Symbol_Scope t o own /\
    t !! nm = None /\ p = fresh_addr s /\ p <> this /\
    s' = set_heap
           (<[this := set_kind (Symbol_Scope (<[nm := p]> t) o own) self]>
              (<[p := ctor nm]> (heap s)))
           (add_event (EvNew p) s).
Proof.
  intros Hadd.
  destruct (heap s !! this) as [self|] eqn:Hthis; last first.
  { unfold Add, bind at 1, deref in Hadd. by rewrite Hthis in Hadd. }
  assert (Hfresh : fresh_addr s ≠ this).
  { intros E. pose proof (fresh_addr_free s) as Hf. rewrite E in Hf. congruence. }
  destruct (kind self) as [| | |t o own] eqn:Hk.
  1-3: exfalso; unfold Add in Hadd;
       rewrite (bind_Ok _ _ _ _ _ (deref_live _ _ _ Hthis)) in Hadd;
       unfold NewPtr, bind at 1 in Hadd;
       erewrite bind_Ok in Hadd
         by (apply deref_live; cbn; rewrite lookup_insert_ne; [exact Hthis|done]);
       by rewrite Hk in Hadd.
  destruct (t !! nm) as [q|] eqn:Hnm.
  { by rewrite (Add_duplicate _ _ _ _ _ _ _ _ _ Hthis Hk Hnm) in Hadd. }
  rewrite (Add_fresh this nm ctor s self t o own Hthis Hk Hnm) in Hadd.
  injection Hadd as <- <-. by exists self, t, o, own.
Qed.

(** X3. A declaration that succeeds changes the table of its scope and one
    address that held no Symbol, and nothing else; from any scope, every
    lookup of another name that returned before returns the same entry
    after. *)
Theorem Add_keeps_other_names this nm ctor s p s' :
  Add this nm ctor s = Ok (p, s') ->
  heap s !! p = None /\
  (forall a, a <> this -> a <> p -> heap s' !! a = heap s !! a) /\
  host_objects s' = host_objects s /\
  (forall fuel q nm' scan r,
     nm' <> nm ->
     LookupSymbol fuel q nm' scan s = Ok (r, s) ->
     LookupSymbol fuel q nm' scan s' = Ok (r, s')).
Proof.
  intros Hadd.
  apply Add_inv in Hadd as (self & t & o & own & Hthis & Hk & Hnm & -> & Hne & ->).
  pose proof (fresh_addr_free s) as Hfresh.
  split; [done|]. split; [|split; [done|]].
  { intros a Ha1 Ha2. cbn. by rewrite !lookup_insert_ne. }
  set (s' := set_heap _ _).
  intros fuel q nm' scan r Hnm'. revert q scan.
  induction fuel as [|fuel IH]; intros q scan Hl; [done|].
  cbn [LookupSymbol] in Hl.
  apply bind_inv in Hl as (qsym & s1 & Hq & Hl).
  apply deref_inv in Hq as (q' & [= <-] & Hq & ->).
  destruct (kind qsym) as [| | |tq oq ownq] eqn:Hkq; try done.
  assert (exists qsym' tq',
            heap s' !! q = Some qsym' /\
            kind qsym' = Symbol_Scope tq' oq ownq /\
            scope qsym' = scope qsym /\ tq' !! nm' = tq !! nm')
    as (qsym' & tq' & Hq' & Hkq' & Hsc & Htq).
  { destruct (decide (q = this)) as [->|Hqt].
    - assert (qsym = self) as -> by congruence.
      assert (tq = t /\ oq = o /\ ownq = own) as (-> & -> & ->)
        by (rewrite Hk in Hkq; by injection Hkq).
      eexists _, _. subst s'. cbn. rewrite lookup_insert_eq.
      split; [done|]. split; [done|]. split; [done|].
      by rewrite lookup_insert_ne.
    - exists qsym, tq. subst s'. cbn.
      rewrite lookup_insert_ne by done.
      rewrite lookup_insert_ne by (intros E; rewrite E in Hfresh; congruence).
      done. }
  erewrite LookupSymbol_unfold by eauto. rewrite Htq, Hsc.
  destruct (tq !! nm') as [e|]; [by injection Hl as <-|].
  destruct (scope qsym) as [parent|]; [|by injection Hl as <-].
  destruct scan; cbn in Hl; [by apply IH|by injection Hl as <-].
Qed.

(** X4. [AddBuiltin] is [Add] followed by the setting of the builtin flag of
    the new entry and of nothing else: in a scope that does not hold the
    name it declares the entry, which [GetSymbol] then returns and which is
    builtin; in a scope that holds the name it fails the assertion of
    [Add] like [Add] does. *)
Theorem AddBuiltin_declares this nm ctor s self t o own :
  heap s !! this = Some self -> kind self = Symbol_Scope t o own ->
  (t !! nm = None ->
   exists p s0 s',
     Add this nm ctor s = Ok (p, s0) /\
     AddBuiltin this nm ctor s = Ok (p, s') /\
     s' = set_heap (<[p := SetBuiltin (ctor nm)]> (heap s0)) s0 /\
     heap s' !! p = Some (SetBuiltin (ctor nm)) /\
     GetSymbol this nm s' = Ok (Some p, s')) /\
  (forall q, t !! nm = Some q ->
     AddBuiltin this nm ctor s = Err AssertionFailure).
Proof.
  intros Hthis Hk. split.
  - intros Hnm.
    assert (Hne : fresh_addr s ≠ this).
    { intros E. pose proof (fresh_addr_free s) as Hf. rewrite E in Hf. congruence. }
    pose proof (Add_fresh this nm ctor s self t o own Hthis Hk Hnm) as Hadd.
    eexists _, _, _. split; [exact Hadd|].
    unfold AddBuiltin. rewrite (bind_Ok _ _ _ _ _ Hadd).
    erewrite bind_Ok; last first.
    { apply deref_live. cbn. rewrite lookup_insert_ne by done.
      by rewrite lookup_insert_eq. }
    split; [reflexivity|]. split; [reflexivity|].
    cbn. rewrite lookup_insert_eq. split; [done|].
    unfold GetSymbol. erewrite bind_Ok; last first.
    { apply deref_live. cbn. rewrite lookup_insert_ne by done.
      by rewrite lookup_insert_eq. }
    cbn. by rewrite lookup_insert_eq.
  - intros q Hnm. unfold AddBuiltin.
    by rewrite (bind_Err _ _ _ _ (Add_duplicate _ _ ctor _ _ _ _ _ _ Hthis Hk Hnm)).
Qed.

(** X5. A scope declared by [AddScope] is empty and has the declaring scope
    as its parent: from the new scope a scanning lookup of any name is the
    lookup from the declaring scope, a lookup without scanning finds
    nothing, and the declaring scope resolves the new name to the new
    scope. *)
Theorem AddScope_nested this nm d o own s c s' :
  AddScope this nm d o own s = Ok (c, s') ->
  heap s' !! c = Some (new_Symbol_Scope nm d (Some this) o own) /\
  (forall fuel x,
     LookupSymbol (S fuel) c x true s' = LookupSymbol fuel this x true s') /\
  (forall fuel x, LookupSymbol (S fuel) c x false s' = Ok (None, s')) /\
  (forall fuel scan, LookupSymbol (S fuel) this nm scan s' = Ok (Some c, s')).
Proof.
  intros Hadd. unfold AddScope in Hadd.
  apply Add_inv in Hadd as (self & t & o' & own' & Hthis & Hk & Hnm & -> & Hne & ->).
  set (s' := set_heap _ _).
  assert (Hc : heap s' !! fresh_addr s =
                 Some (new_Symbol_Scope nm d (Some this) o own)).
  { subst s'. cbn. rewrite lookup_insert_ne by done. by rewrite lookup_insert_eq. }
  split; [done|]. split; [|split].
  - intros fuel x. by erewrite LookupSymbol_unfold by (exact Hc || reflexivity).
  - intros fuel x. by erewrite LookupSymbol_unfold by (exact Hc || reflexivity).
  - intros fuel scan.
    assert (Hthis' : heap s' !! this =
              Some (set_kind (Symbol_Scope (<[nm := fresh_addr s]> t) o' own') self)).
    { subst s'. cbn. by rewrite lookup_insert_eq. }
    rewrite (LookupSymbol_unfold _ _ _ _ _ _ _ _ _ Hthis' eq_refl).
    by rewrite lookup_insert_eq.
Qed.

(** ** Deletion of Symbols that are not scopes *)


Lemma released_lookup l : forall s a,
  heap (released l s) !! a = if decide (a ∈ l) then None else heap s !! a.
Proof.
  unfold released. cbn.
  induction l as [|b l IH]; intros s a; cbn.
  - by rewrite decide_False by apply not_elem_of_nil.
  - specialize (IH (set_heap (delete b (heap s)) s) a). cbn in IH. rewrite IH.
    destruct (decide (a = b)) as [->|Hne].
    + rewrite lookup_delete_eq. rewrite (decide_True _ _ (list_elem_of_here b l)).
      by destruct (decide _).
    + rewrite lookup_delete_ne by done.
      destruct (decide (a ∈ l)) as [Hin|Hin].
      * by rewrite decide_True by (by right).
      * rewrite decide_False; [done|]. by intros [?|?]%elem_of_cons.
Qed.


Lemma released_app l1 l2 s :
  released (l1 ++ l2) s = released l2 (released l1 s).
Proof.
  unfold released. cbn. by rewrite foldl_app, map_app, app_assoc.
Qed.



Lemma deallocations_app l1 l2 :
  deallocations (l1 ++ l2) = deallocations l1 + deallocations l2.
Proof. unfold deallocations. by rewrite List.filter_app, length_app. Qed.


Lemma allocations_app l1 l2 :
  allocations (l1 ++ l2) = allocations l1 + allocations l2.
Proof. unfold allocations. by rewrite List.filter_app, length_app. Qed.

Lemma allocations_EvDelete l : allocations (map EvDelete l) = 0.
Proof. unfold allocations. induction l; cbn; auto. Qed.

(** ** The destructor of a scope *)





(** ** Unary operator *)


(** ** A child without a result *)


(** ** Arity *)

(** X9. A node with the wrong number of children fails its assertion before
    it processes any child, whatever the state: a unary operator with other
    than one child, a binary operator or an assignment with other than two,
    a call or an event with none. *)
Theorem Process_arity :
  (forall nm f children s,
     length children <> 1 ->
     Process (ASTNode_Math1 nm f children) s = Err AssertionFailure) /\
  (forall R A1 A2 nm f children s,
     length children <> 2 ->
     Process (ASTNode_Op2 R A1 A2 nm f children) s = Err AssertionFailure) /\
  (forall children s,
     length children <> 2 ->
     Process (ASTNode_Assign children) s = Err AssertionFailure) /\
  (forall s, Process (ASTNode_Call []) s = Err AssertionFailure) /\
  (forall nm f s, Process (ASTNode_Event nm f []) s = Err AssertionFailure).
Proof.
  repeat split.
  - by intros nm f [|c1 [|c2 l]] s Hlen.
  - by intros R A1 A2 nm f [|c1 [|c2 [|c3 l]]] s Hlen.
  - by intros [|c1 [|c2 [|c3 l]]] s Hlen.
Qed.

(** ** Teardown of a tree *)

Lemma released_nil s : released [] s = s.
Proof. unfold released. cbn. rewrite app_nil_r. by destruct s. Qed.

Lemma Delete_children children :
  Forall (fun n => forall s,
            NoDup (owned_symbols n) ->
            (forall a, a ∈ owned_symbols n ->
               exists sym, heap s !! a = Some sym /\ IsScope sym = false) ->
            Delete_node n s = Ok (tt, released (owned_symbols n) s))
         children ->
  forall s,
    NoDup (owned_by_children owned_symbols children) ->
    (forall a, a ∈ owned_by_children owned_symbols children ->
       exists sym, heap s !! a = Some sym /\ IsScope sym = false) ->
    for_each Delete_node children s
      = Ok (tt, released (owned_by_children owned_symbols children) s).
Proof.
  induction 1 as [|node rest Hnode _ IH]; intros s Hnd Hlive.
  - by rewrite released_nil.
  - cbn [owned_by_children] in *.
    apply NoDup_app in Hnd as (Hnd1 & Hdisj & Hnd2).
    rewrite for_each_cons, Hnode, released_app; [|done|].
    + apply IH; [done|]. intros a Ha.
      destruct (Hlive a) as (sym & Hl & Hk); [apply elem_of_app; by right|].
      exists sym. split; [|done]. rewrite released_lookup.
      rewrite decide_False; [done|]. intros Hin. by eapply Hdisj.
    + intros a Ha. apply Hlive. apply elem_of_app. by left.
Qed.

(** X10. The destructor of a tree deletes the Symbols its leaves own, in the
    order of the leaves, and nothing else: when these Symbols are distinct,
    live and not scopes, it returns; afterwards each of them is gone, every
    other Symbol (those of the leaves that do not own theirs among them) and
    every host object is as it was, and the trace grew by one deallocation
    for each owned Symbol. *)
Theorem Delete_node_releases_owned n s :
  NoDup (owned_symbols n) ->
  (forall a, a ∈ owned_symbols n ->
     exists sym, heap s !! a = Some sym /\ IsScope sym = false) ->
  exists s',
    Delete_node n s = Ok (tt, s') /\
    (forall a, a ∈ owned_symbols n -> heap s' !! a = None) /\
    (forall a, a ∉ owned_symbols n -> heap s' !! a = heap s !! a) /\
    host_objects s' = host_objects s /\
    log s' = log s ++ map EvDelete (owned_symbols n).
Proof.
  intros Hnd Hlive.
  assert (Hdel : Delete_node n s = Ok (tt, released (owned_symbols n) s)).
  { revert s Hnd Hlive.
    induction n as [a own|sp children IH|nm f children IH
                   |R A1 A2 nm f children IH|children IH|children IH
                   |nm f children IH] using ASTNode_children_ind;
      intros s Hnd Hlive; cbn [Delete_node owned_symbols] in *;
      try (by apply Delete_children).
    destruct own; [|by rewrite released_nil].
    destruct (Hlive a) as (sym & Ha & Hk); [by left|].
    by rewrite (Delete_plain _ _ _ Ha Hk). }
  exists (released (owned_symbols n) s). split; [done|].
  split; [|split; [|done]].
  - intros a Ha. rewrite released_lookup. by rewrite decide_True.
  - intros a Ha. rewrite released_lookup. by rewrite decide_False.
Qed.

Lemma new_ASTNode_Leaf_live a s sym :
  heap s !! a = Some sym ->
  new_ASTNode_Leaf (Some a) s =
    Ok (ASTNode_Leaf a (is_temporary sym),
        set_heap (<[a := SetTemporary false sym]> (heap s)) s).
Proof.
  intros Ha. unfold new_ASTNode_Leaf.
  by rewrite (bind_Ok _ _ _ _ _ (deref_live _ _ _ Ha)).
Qed.

(** X11. Two leaves attached one after the other to the same Symbol: only
    the first can own it, so the destructor of a tree that holds both
    deletes the Symbol once when it was temporary and not at all when it
    was not, and returns.  Had both leaves recorded ownership, the second
    deletion would be of a freed Symbol. *)
Theorem shared_Symbol_deleted_once a s sym :
  heap s !! a = Some sym -> IsScope sym = false ->
  exists leaf1 leaf2 s1,
    new_ASTNode_Leaf (Some a) s = Ok (leaf1, s1) /\
    new_ASTNode_Leaf (Some a) s1 = Ok (leaf2, s1) /\
    owned_symbols (ASTNode_Assign [leaf1; leaf2])
      = (if is_temporary sym then [a] else []) /\
    Delete_node (ASTNode_Assign [leaf1; leaf2]) s1
      = Ok (tt, released (if is_temporary sym then [a] else []) s1) /\
    Delete_node (ASTNode_Assign [ASTNode_Leaf a true; ASTNode_Leaf a true]) s1
      = Err DanglingPointer.
Proof.
  intros Ha Hk.
  set (s1 := set_heap (<[a := SetTemporary false sym]> (heap s)) s).
  assert (Ha1 : heap s1 !! a = Some (SetTemporary false sym)).
  { subst s1. cbn. by rewrite lookup_insert_eq. }
  assert (Hk1 : IsScope (SetTemporary false sym) = false) by done.
  exists (ASTNode_Leaf a (is_temporary sym)), (ASTNode_Leaf a false), s1.
  split; [by apply new_ASTNode_Leaf_live|]. split.
  { rewrite (new_ASTNode_Leaf_live _ _ _ Ha1). cbn. do 2 f_equal.
    subst s1. unfold set_heap. cbn. by rewrite insert_insert_eq. }
  split; [cbn; by destruct (is_temporary sym)|]. split.
  - cbn [Delete_node]. rewrite !for_each_cons. cbn [Delete_node].
    destruct (is_temporary sym).
    + by rewrite (Delete_plain _ _ _ Ha1 Hk1).
    + cbn. by rewrite released_nil.
  - cbn [Delete_node]. rewrite for_each_cons. cbn [Delete_node].
    rewrite (Delete_plain _ _ _ Ha1 Hk1). cbv beta iota.
    rewrite for_each_cons. cbn [Delete_node].
    set (s2 := add_event _ _).
    assert (Hgone : heap s2 !! a = None) by apply lookup_delete_eq.
    assert (Delete a s2 = Err DanglingPointer) as ->; [|done].
    unfold Delete. cbn [Delete_fuel]. apply bind_Err.
    unfold deref. by rewrite Hgone.
Qed.

(** ** The predicates of a node and the result of its evaluation *)

(** X12. [HasValue] tells whether [Process] returns a Symbol: whenever
    [Process] of a node returns, the pointer it returns is null for a node
    without a value (a Block, an Event) and not null for a node with one. *)
Theorem HasValue_Process n s r s' :
  Process n s = Ok (r, s') ->
  (HasValue n = false -> r = None) /\
  (HasValue n = true -> exists a, r = Some a).
Proof.
  intros Hp. destruct n as [a own|sp children|nm f children
                           |R A1 A2 nm f children|children|children
                           |nm f children]; cbn [Process HasValue] in *.
  - injection Hp as <- <-. split; [done|eauto].
  - apply bind_inv in Hp as (u & s1 & _ & Hp). injection Hp as <- <-.
    by split.
  - destruct children as [|child [|]]; try done.
    apply bind_inv in Hp as (input & s1 & _ & Hp).
    apply bind_inv in Hp as (sym & s2 & _ & Hp).
    apply bind_inv in Hp as (x & s3 & _ & Hp).
    apply bind_inv in Hp as (g & s4 & _ & Hp).
    apply bind_inv in Hp as (u & s5 & _ & Hp).
    rewrite MakeTempSymbol_eq in Hp. injection Hp as <- <-.
    split; [done|eauto].
  - destruct children as [|child1 [|child2 [|]]]; try done.
    apply bind_inv in Hp as (in1 & s1 & _ & Hp).
    apply bind_inv in Hp as (in2 & s2 & _ & Hp).
    apply bind_inv in Hp as (sym1 & s3 & _ & Hp).
    apply bind_inv in Hp as (sym2 & s4 & _ & Hp).
    apply bind_inv in Hp as (x1 & s5 & _ & Hp).
    apply bind_inv in Hp as (x2 & s6 & _ & Hp).
    apply bind_inv in Hp as (g & s7 & _ & Hp).
    apply bind_inv in Hp as (u1 & s8 & _ & Hp).
    apply bind_inv in Hp as (u2 & s9 & _ & Hp).
    rewrite MakeTempSymbol_eq in Hp. injection Hp as <- <-.
    split; [done|eauto].
  - destruct children as [|child1 [|child2 [|]]]; try done.
    apply bind_inv in Hp as (lhs & s1 & _ & Hp).
    apply bind_inv in Hp as (rhs & s2 & _ & Hp).
    apply bind_inv in Hp as (lsym & s3 & Hl & Hp).
    apply deref_inv in Hl as (l & -> & _ & ->).
    apply bind_inv in Hp as (rsym & s3 & _ & Hp).
    apply bind_inv in Hp as (lsym' & s4 & _ & Hp).
    apply bind_inv in Hp as (u1 & s5 & _ & Hp).
    apply bind_inv in Hp as (u2 & s6 & _ & Hp).
    injection Hp as <- <-. split; [done|eauto].
  - destruct children as [|callee arguments]; [done|].
    apply bind_inv in Hp as (fn & s1 & _ & Hp).
    apply bind_inv in Hp as (args & s2 & _ & Hp).
    apply bind_inv in Hp as (res & s3 & Hcall & Hp).
    apply bind_inv in Hp as (u & s4 & _ & Hp).
    injection Hp as <- <-.
    apply Symbol_Call_inv in Hcall as (a & _ & _ & _ & _ & _ & _ & _ & -> & _).
    split; [done|eauto].
  - destruct children as [|action arguments]; [done|].
    apply bind_inv in Hp as (args & s1 & _ & Hp).
    apply bind_inv in Hp as (g & s2 & _ & Hp).
    injection Hp as <- <-. by split.
Qed.

(** X13. The type predicates of the operator nodes agree with what
    [Process] returns: the Symbol a binary operator returns holds a number
    exactly when the node's [IsNumeric] is true and a string exactly when
    its [IsString] is true, one of the two always; the Symbol a unary
    operator returns holds a number, and its [IsNumeric] is true and its
    [IsString] false.  The predicates of these nodes read no Symbol. *)
Theorem operator_predicates_Process isnum isstr hasnum hasstr :
  (forall R A1 A2 nm f children s r s' s0,
     Process (ASTNode_Op2 R A1 A2 nm f children) s = Ok (r, s') ->
     exists a out b,
       r = Some a /\ heap s' !! a = Some out /\
       IsNumeric isnum hasnum (ASTNode_Op2 R A1 A2 nm f children) s0
         = Ok (b, s0) /\
       IsString isstr hasstr (ASTNode_Op2 R A1 A2 nm f children) s0
         = Ok (negb b, s0) /\
       (b = true <-> exists v, kind out = Symbol_DoubleVar v) /\
       (b = false <-> exists v, kind out = Symbol_StringVar v)) /\
  (forall nm f children s r s' s0,
     Process (ASTNode_Math1 nm f children) s = Ok (r, s') ->
     exists a out v,
       r = Some a /\ heap s' !! a = Some out /\
       kind out = Symbol_DoubleVar v /\
       IsNumeric isnum hasnum (ASTNode_Math1 nm f children) s0 = Ok (true, s0) /\
       IsString isstr hasstr (ASTNode_Math1 nm f children) s0 = Ok (false, s0)).
Proof.
  split.
  - intros R A1 A2 nm f children s r s' s0 Hp. cbn [Process] in Hp.
    destruct children as [|child1 [|child2 [|]]]; try done.
    apply bind_inv in Hp as (in1 & s1 & _ & Hp).
    apply bind_inv in Hp as (in2 & s2 & _ & Hp).
    apply bind_inv in Hp as (sym1 & s3 & _ & Hp).
    apply bind_inv in Hp as (sym2 & s4 & _ & Hp).
    apply bind_inv in Hp as (x1 & s5 & _ & Hp).
    apply bind_inv in Hp as (x2 & s6 & _ & Hp).
    apply bind_inv in Hp as (g & s7 & _ & Hp).
    apply bind_inv in Hp as (u1 & s8 & _ & Hp).
    apply bind_inv in Hp as (u2 & s9 & _ & Hp).
    rewrite MakeTempSymbol_eq in Hp. injection Hp as <- <-.
    eexists _, _, (is_same R T_double). split; [done|].
    split; [cbn; by rewrite lookup_insert_eq|].
    split; [done|]. split; [by destruct R|].
    destruct R; cbn; split; split; try done; eauto; by intros [? ?].
  - intros nm f children s r s' s0 Hp. cbn [Process] in Hp.
    destruct children as [|child [|]]; try done.
    apply bind_inv in Hp as (input & s1 & _ & Hp).
    apply bind_inv in Hp as (sym & s2 & _ & Hp).
    apply bind_inv in Hp as (x & s3 & _ & Hp).
    apply bind_inv in Hp as (g & s4 & _ & Hp).
    apply bind_inv in Hp as (u & s5 & _ & Hp).
    rewrite MakeTempSymbol_eq in Hp. injection Hp as <- <-.
    eexists _, _, _. split; [done|].
    split; [cbn; by rewrite lookup_insert_eq|]. by repeat split.
Qed.

(** ** Operator expressions *)

Lemma setup_calls_EvDelete l : setup_calls (map EvDelete l) = 0.
Proof. unfold setup_calls. induction l; cbn; auto. Qed.

(** The release of the result of a sub-expression gives back the heap the
    sub-expression started from. *)
Lemma expression_release leaves s r s1 new u s2 :
  all_named leaves s ->
  expression_run leaves s r s1 new ->
  (match r with Some _ => delete_if_temporary r | None => ret tt end) s1
    = Ok (u, s2) ->
  heap s2 = heap s /\ host_objects s2 = host_objects s /\
  exists k, log s2 = log s ++ k /\ allocations k = deallocations k /\
            setup_calls k = 0.
Proof.
  intros Hnamed [Hho (k & Hlog & Hbal & Hset) (a & -> & Hres)] Hd.
  apply delete_if_temporary_inv in Hd as (a' & sym & [= <-] & Ha & Hd).
  destruct new.
  - destruct Hres as (Hfree & out & Hheap & Htemp & Hk).
    rewrite Hheap, lookup_insert_eq in Ha. injection Ha as <-.
    rewrite Htemp in Hd.
    rewrite (Delete_plain a s1 out) in Hd
      by (by rewrite ?Hheap, ?lookup_insert_eq).
    injection Hd as _ <-. cbn. rewrite Hheap, delete_insert_id by done.
    split; [done|]. split; [done|].
    exists (k ++ [EvDelete a]). rewrite Hlog, app_assoc. split; [done|].
    rewrite allocations_app, deallocations_app, setup_calls_app, Hbal, Hset.
    cbn. split; lia.
  - destruct Hres as [Hheap Hin].
    destruct (Hnamed a Hin) as (sym' & Ha' & Htemp).
    rewrite Hheap, Ha' in Ha. injection Ha as <-. rewrite Htemp in Hd.
    subst s2. split; [done|]. split; [done|].
    exists k. split; [done|]. split; [lia|done].
Qed.

(** The allocation of the result, in a state whose heap is again the heap
    the expression started from. *)
Lemma expression_result leaves s s2 T v r s' :
  heap s2 = heap s -> host_objects s2 = host_objects s ->
  (exists k, log s2 = log s ++ k /\ allocations k = deallocations k /\
             setup_calls k = 0) ->
  MakeTempSymbol T v s2 = Ok (r, s') ->
  expression_run leaves s r s' true.
Proof.
  intros Hheap Hho (k & Hlog & Hbal & Hset) Hm.
  rewrite MakeTempSymbol_eq in Hm. injection Hm as <- <-.
  pose proof (fresh_addr_free s2) as Hfresh. rewrite Hheap in Hfresh.
  split; [done| |].
  - exists (k ++ [EvNew (fresh_addr s2)]). cbn. rewrite Hlog, app_assoc.
    split; [done|].
    rewrite allocations_app, deallocations_app, setup_calls_app, Hbal, Hset.
    cbn. split; lia.
  - exists (fresh_addr s2). split; [done|]. split; [done|].
    eexists. cbn. rewrite Hheap. split; [done|]. split; [done|].
    by destruct T.
Qed.

Lemma all_named_run leaves l s r s1 new :
  all_named l s -> expression_run leaves s r s1 new -> all_named l s1.
Proof.
  intros Hnamed [_ _ (a & -> & Hres)] p Hp.
  destruct (Hnamed p Hp) as (sym & Hl & Ht). exists sym. split; [|done].
  destruct new.
  - destruct Hres as (Hfree & out & -> & _).
    rewrite lookup_insert_ne; [done|]. intros ->. congruence.
  - destruct Hres as [-> _]. done.
Qed.

(** The release of the result of the first of two sub-expressions, after
    the second has run. *)
Lemma expression_release_first leaves1 leaves2 s b1 s1 new1 in2 s2 new2 u s3 :
  all_named leaves1 s ->
  expression_run leaves1 s (Some b1) s1 new1 ->
  expression_run leaves2 s1 in2 s2 new2 ->
  delete_if_temporary (Some b1) s2 = Ok (u, s3) ->
  expression_run leaves2 s in2 s3 new2.
Proof.
  intros Hnamed [Hho1 (k1 & Hlog1 & Hbal1 & Hset1) (? & [= <-] & Hres1)]
         [Hho2 (k2 & Hlog2 & Hbal2 & Hset2) (b2 & -> & Hres2)] Hd.
  apply delete_if_temporary_inv in Hd as (? & sym & [= <-] & Hb1 & Hd).
  destruct new1.
  - destruct Hres1 as (Hfree1 & o1 & Hheap1 & Htemp1 & Hk1).
    assert (Hb1' : heap s1 !! b1 = Some o1)
      by (by rewrite Hheap1, lookup_insert_eq).
    assert (sym = o1) as ->.
    { destruct new2.
      - destruct Hres2 as (Hfree2 & o2 & Hheap2 & _).
        rewrite Hheap2, lookup_insert_ne in Hb1 by congruence. congruence.
      - destruct Hres2 as [Hheap2 _]. congruence. }
    rewrite Htemp1, (Delete_plain _ _ _ Hb1 Hk1) in Hd. injection Hd as _ <-.
    split; [cbn; congruence| |].
    + exists (k1 ++ k2 ++ [EvDelete b1]). cbn.
      rewrite Hlog2, Hlog1, <- !app_assoc. split; [done|].
      rewrite !allocations_app, !deallocations_app, !setup_calls_app.
      rewrite Hbal1, Hbal2, Hset1, Hset2. cbn. split; lia.
    + exists b2. split; [done|]. cbn. destruct new2.
      * destruct Hres2 as (Hfree2 & o2 & Hheap2 & Htemp2 & Hk2).
        assert (b1 ≠ b2) by congruence.
        split.
        { rewrite Hheap1, lookup_insert_ne in Hfree2 by done. done. }
        exists o2. split; [|done].
        rewrite Hheap2, Hheap1, delete_insert_ne by done.
        by rewrite delete_insert_id.
      * destruct Hres2 as [Hheap2 Hin]. split; [|done].
        rewrite Hheap2, Hheap1. by rewrite delete_insert_id.
  - destruct Hres1 as [Hheap1 Hin1].
    destruct (Hnamed b1 Hin1) as (sym1 & Hl1 & Htemp1).
    assert (sym = sym1) as ->.
    { destruct new2.
      - destruct Hres2 as (Hfree2 & o2 & Hheap2 & _).
        rewrite Hheap1 in Hfree2.
        rewrite Hheap2, lookup_insert_ne, Hheap1 in Hb1 by congruence.
        congruence.
      - destruct Hres2 as [Hheap2 _]. congruence. }
    rewrite Htemp1 in Hd. subst s3.
    split; [congruence| |].
    + exists (k1 ++ k2). rewrite Hlog2, Hlog1, <- app_assoc. split; [done|].
      rewrite !allocations_app, !deallocations_app, !setup_calls_app.
      rewrite Hbal1, Hbal2, Hset1, Hset2. split; lia.
    + exists b2. split; [done|]. destruct new2.
      * destruct Hres2 as (Hfree2 & o2 & Hheap2 & Htemp2 & Hk2).
        rewrite Hheap1 in Hfree2, Hheap2. eauto.
      * destruct Hres2 as [Hheap2 Hin]. split; [congruence|done].
Qed.

Lemma Process_operator_expression n :
  operator_expression n = true ->
  forall s r s',
    all_named (leaf_symbols n) s ->
    Process n s = Ok (r, s') ->
    exists new, expression_run (leaf_symbols n) s r s' new.
Proof.
  induction n as [a own|sp children IH|nm f children IH
                 |R A1 A2 nm f children IH|children IH|children IH
                 |nm f children IH] using ASTNode_children_ind;
    intros Hop s r s' Hnamed Hp; cbn [operator_expression] in Hop; try done;
    cbn [Process leaf_symbols] in *.
  - injection Hp as <- <-. exists false. split; [done| |].
    + exists []. by rewrite app_nil_r.
    + exists a. split; [done|]. split; [done|]. by left.
  - destruct children as [|child [|]]; try done.
    apply Forall_cons in IH as [IHc _].
    cbn in Hop. rewrite andb_true_r in Hop.
    cbn [leaves_of_children] in Hnamed. rewrite app_nil_r in Hnamed.
    apply bind_inv in Hp as (input & s1 & Hc & Hp).
    apply bind_inv in Hp as (sym & s2 & Hin & Hp).
    apply deref_inv in Hin as (a & -> & Ha & ->).
    apply bind_inv in Hp as (x & s2 & Hx & Hp).
    apply lift_inv in Hx as [Hx ->].
    apply bind_inv in Hp as (g & s2 & Hg & Hp).
    apply bound_inv in Hg as [-> ->].
    apply bind_inv in Hp as (u & s2 & Hd & Hp).
    destruct (IHc Hop _ _ _ Hnamed Hc) as [new Hrun].
    destruct (expression_release _ _ _ _ _ _ _ Hnamed Hrun Hd)
      as (Hheap & Hho & Hk).
    exists true. by eapply expression_result.
  - destruct children as [|child1 [|child2 [|]]]; try done.
    apply Forall_cons in IH as [IH1 IH]. apply Forall_cons in IH as [IH2 _].
    cbn in Hop. rewrite andb_true_r in Hop.
    apply andb_true_iff in Hop as [Hop1 Hop2].
    cbn [leaves_of_children] in Hnamed. rewrite app_nil_r in Hnamed.
    assert (Hnamed1 : all_named (leaf_symbols child1) s).
    { intros p Hp'. apply Hnamed. apply elem_of_app. by left. }
    assert (Hnamed2 : all_named (leaf_symbols child2) s).
    { intros p Hp'. apply Hnamed. apply elem_of_app. by right. }
    apply bind_inv in Hp as (in1 & s1 & Hc1 & Hp).
    apply bind_inv in Hp as (in2 & s2 & Hc2 & Hp).
    apply bind_inv in Hp as (sym1 & s3 & Hin1 & Hp).
    apply deref_inv in Hin1 as (a1 & -> & Ha1 & ->).
    apply bind_inv in Hp as (sym2 & s3 & Hin2 & Hp).
    apply deref_inv in Hin2 as (a2 & -> & Ha2 & ->).
    apply bind_inv in Hp as (x1 & s3 & Hx1 & Hp).
    apply lift_inv in Hx1 as [Hx1 ->].
    apply bind_inv in Hp as (x2 & s3 & Hx2 & Hp).
    apply lift_inv in Hx2 as [Hx2 ->].
    apply bind_inv in Hp as (g & s3 & Hg & Hp).
    apply bound_inv in Hg as [-> ->].
    apply bind_inv in Hp as (u1 & s3 & Hd1 & Hp).
    apply bind_inv in Hp as (u2 & s4 & Hd2 & Hp).
    destruct (IH1 Hop1 _ _ _ Hnamed1 Hc1) as [new1 Hrun1].
    pose proof (all_named_run _ _ _ _ _ _ Hnamed2 Hrun1) as Hnamed2'.
    destruct (IH2 Hop2 _ _ _ Hnamed2' Hc2) as [new2 Hrun2].
    pose proof (expression_release_first _ _ _ _ _ _ _ _ _ _ _
                  Hnamed1 Hrun1 Hrun2 Hd1) as Hrun3.
    destruct (expression_release _ _ _ _ _ _ _ Hnamed2 Hrun3 Hd2)
      as (Hheap & Hho & Hk).
    exists true. by eapply expression_result.
Qed.

Lemma Process_statements_expressions children :
  forallb operator_expression children = true ->
  forall s s',
    all_named (leaves_of_children leaf_symbols children) s ->
    Process_statements Process children s = Ok (tt, s') ->
    heap s' = heap s /\ host_objects s' = host_objects s /\
    exists k, log s' = log s ++ k /\ allocations k = deallocations k /\
              setup_calls k = 0.
Proof.
  induction children as [|node rest IH]; intros Hop s s' Hnamed Hst.
  - injection Hst as <-. split; [done|]. split; [done|].
    exists []. by rewrite app_nil_r.
  - cbn in Hop. apply andb_true_iff in Hop as [Hop1 Hop2].
    cbn [leaves_of_children] in Hnamed.
    assert (Hnamed1 : all_named (leaf_symbols node) s).
    { intros p Hp'. apply Hnamed. apply elem_of_app. by left. }
    assert (Hnamed2 : all_named (leaves_of_children leaf_symbols rest) s).
    { intros p Hp'. apply Hnamed. apply elem_of_app. by right. }
    rewrite Process_statements_cons in Hst.
    destruct (Process node s) as [[out s2]|e] eqn:Hnode; [|by destruct e].
    destruct (Process_operator_expression node Hop1 _ _ _ Hnamed1 Hnode)
      as [new Hrun].
    assert (exists u s3,
      match out with
      | Some _ => delete_if_temporary out
      | None => ret tt
      end s2 = Ok (u, s3) /\
      Process_statements Process rest s3 = Ok (tt, s')) as (u & s3 & Hd & Hrest).
    { destruct out as [a|].
      - destruct (delete_if_temporary (Some a) s2) as [[u s3]|e] eqn:Hd;
          [|done]. by exists u, s3.
      - by exists tt, s2. }
    destruct (expression_release _ _ _ _ _ _ _ Hnamed1 Hrun Hd)
      as (Hheap3 & Hho3 & k & Hlog3 & Hbal3 & Hset3).
    assert (Hnamed3 : all_named (leaves_of_children leaf_symbols rest) s3).
    { intros p Hp'. destruct (Hnamed2 p Hp') as (sym & Hl & Ht).
      exists sym. by rewrite Hheap3. }
    destruct (IH Hop2 _ _ Hnamed3 Hrest)
      as (Hheap' & Hho' & k' & Hlog' & Hbal' & Hset').
    split; [congruence|]. split; [congruence|].
    exists (k ++ k'). rewrite Hlog', Hlog3, <- app_assoc. split; [done|].
    rewrite allocations_app, deallocations_app, setup_calls_app. lia.
Qed.

(** X14. A Block whose statements are operator expressions (unary and
    binary operators over leaves) over Symbols that are live and not
    temporary leaves the heap and the host objects exactly as they were:
    every temporary that the statements make is released.  In the trace the
    allocations and the deallocations are as many, and no setup closure is
    called. *)
Theorem Block_of_expressions sp children s r s' :
  forallb operator_expression children = true ->
  all_named (leaves_of_children leaf_symbols children) s ->
  Process (ASTNode_Block sp children) s = Ok (r, s') ->
  r = None /\ heap s' = heap s /\ host_objects s' = host_objects s /\
  exists k, log s' = log s ++ k /\ allocations k = deallocations k /\
            setup_calls k = 0.
Proof.
  intros Hop Hnamed Hp. cbn [Process] in Hp.
  apply bind_inv in Hp as ([] & s1 & Hst & Hp). injection Hp as <- <-.
  split; [done|]. by eapply Process_statements_expressions.
Qed.

Lemma arithmetic_operator_expression n :
  arithmetic n = true -> operator_expression n = true.
Proof.
  induction n as [a own|sp children IH|nm f children IH
                 |R A1 A2 nm f children IH|children IH|children IH
                 |nm f children IH] using ASTNode_children_ind;
    cbn [arithmetic operator_expression]; try done.
  - intros Ha. apply andb_true_iff in Ha as [_ Ha].
    induction IH as [|c l Hc _ IHl]; [done|]. cbn in *.
    apply andb_true_iff in Ha as [H1 H2]. by rewrite Hc, IHl.
  - intros Ha. apply andb_true_iff in Ha as [_ Ha].
    induction IH as [|c l Hc _ IHl]; [done|]. cbn in *.
    apply andb_true_iff in Ha as [H1 H2]. by rewrite Hc, IHl.
Qed.

Lemma all_numeric_named l s : all_numeric l s -> all_named l s.
Proof.
  intros Hnum p Hp. destruct (Hnum p Hp) as (sym & v & ? & ? & ?). eauto.
Qed.

Lemma all_numeric_run leaves l s r s1 new :
  all_numeric l s -> expression_run leaves s r s1 new -> all_numeric l s1.
Proof.
  intros Hnum [_ _ (a & -> & Hres)] p Hp.
  destruct (Hnum p Hp) as (sym & v & Hl & Ht & Hk). exists sym, v.
  split; [|done]. destruct new.
  - destruct Hres as (Hfree & out & -> & _).
    rewrite lookup_insert_ne; [done|]. intros ->. congruence.
  - destruct Hres as [-> _]. done.
Qed.

Lemma delete_if_temporary_numeric a s sym v :
  heap s !! a = Some sym -> kind sym = Symbol_DoubleVar v ->
  exists s', delete_if_temporary (Some a) s = Ok (tt, s').
Proof.
  intros Ha Hk. destruct (is_temporary sym) eqn:Ht.
  - rewrite (delete_if_temporary_release _ _ _ Ha Ht).
    erewrite Delete_plain; [eauto|done|]. unfold IsScope. by rewrite Hk.
  - rewrite (delete_if_temporary_keep _ _ _ Ha Ht). eauto.
Qed.

Lemma AsDouble_numeric sym v : kind sym = Symbol_DoubleVar v -> AsDouble sym = Ok v.
Proof. unfold AsDouble. by intros ->. Qed.

Lemma expression_run_keeps leaves s r s' new p sym :
  expression_run leaves s r s' new ->
  heap s !! p = Some sym -> heap s' !! p = Some sym.
Proof.
  intros [_ _ (a & -> & Hres)] Hp. destruct new.
  - destruct Hres as (Hfree & out & -> & _).
    rewrite lookup_insert_ne; [done|]. intros ->. congruence.
  - destruct Hres as [-> _]. done.
Qed.

Lemma expression_run_temporary leaves s a s' new sym :
  all_named leaves s ->
  expression_run leaves s (Some a) s' new ->
  heap s' !! a = Some sym -> is_temporary sym = true ->
  heap s !! a = None.
Proof.
  intros Hnamed [_ _ (? & [= <-] & Hres)] Ha Ht. destruct new.
  - by destruct Hres.
  - destruct Hres as [Hheap Hin].
    destruct (Hnamed a Hin) as (sym' & Hl & Ht'). congruence.
Qed.

Lemma delete_if_temporary_keeps a1 s2 u s3 sym1 a2 sym2 :
  delete_if_temporary (Some a1) s2 = Ok (u, s3) ->
  heap s2 !! a1 = Some sym1 -> IsScope sym1 = false ->
  heap s2 !! a2 = Some sym2 ->
  (is_temporary sym2 = true -> a1 <> a2) ->
  heap s3 !! a2 = Some sym2.
Proof.
  intros Hd Ha1 Hk1 Ha2 Hne.
  apply delete_if_temporary_inv in Hd as (? & sym & [= <-] & Ha1' & Hd).
  assert (sym = sym1) as -> by congruence.
  destruct (is_temporary sym1) eqn:Ht1; [|by subst].
  rewrite (Delete_plain _ _ _ Ha1 Hk1) in Hd. injection Hd as _ <-. cbn.
  rewrite lookup_delete_ne; [done|]. intros <-.
  assert (sym2 = sym1) as -> by congruence. by apply Hne.
Qed.

Lemma arithmetic_run n :
  arithmetic n = true ->
  forall s, all_numeric (leaf_symbols n) s ->
    exists a s' sym v new,
      Process n s = Ok (Some a, s') /\
      expression_run (leaf_symbols n) s (Some a) s' new /\
      heap s' !! a = Some sym /\ kind sym = Symbol_DoubleVar v.
Proof.
  induction n as [a own|sp children IH|nm f children IH
                 |R A1 A2 nm f children IH|children IH|children IH
                 |nm f children IH] using ASTNode_children_ind;
    intros Har s Hnum; cbn [arithmetic] in Har; try done.
  - cbn [leaf_symbols] in Hnum.
    destruct (Hnum a) as (sym & v & Ha & Ht & Hk); [by left|].
    exists a, s, sym, v, false. split; [done|]. split; [|done].
    split; [done| |].
    + exists []. by rewrite app_nil_r.
    + exists a. split; [done|]. split; [done|]. by left.
  - pose proof (arithmetic_operator_expression (ASTNode_Math1 nm f children))
      as Hop. cbn [arithmetic] in Hop. specialize (Hop Har).
    apply andb_true_iff in Har as [Har Hch].
    apply andb_true_iff in Har as [Hf Hlen].
    destruct f as [g|]; [|done].
    destruct children as [|child [|]]; try done.
    apply Forall_cons in IH as [IHc _].
    cbn in Hch. rewrite andb_true_r in Hch.
    pose proof Hnum as Hnum0.
    cbn [leaf_symbols leaves_of_children] in Hnum.
    rewrite app_nil_r in Hnum.
    destruct (IHc Hch s Hnum) as (a & s1 & sym & v & new & Hc & Hrun & Ha & Hk).
    destruct (delete_if_temporary_numeric _ _ _ _ Ha Hk) as [s2 Hd].
    assert (Hp : Process (ASTNode_Math1 nm (Some g) [child]) s
                 = Ok (Some (fresh_addr s2),
                       add_event (EvNew (fresh_addr s2))
                         (set_heap (<[fresh_addr s2 :=
                            temp_Symbol (Symbol_DoubleVar (g v))]> (heap s2))
                            s2))).
    { cbn [Process]. rewrite (bind_Ok _ _ _ _ _ Hc).
      rewrite (bind_Ok _ _ _ _ _ (deref_live _ _ _ Ha)).
      rewrite (bind_Ok _ _ _ _ _ (lift_Ok _ _ _ (AsDouble_numeric _ _ Hk))).
      cbn [bound]. unfold bind at 1, ret at 1.
      by rewrite (bind_Ok _ _ _ _ _ Hd). }
    destruct (Process_operator_expression _ Hop _ _ _
                (all_numeric_named _ _ Hnum0) Hp) as [new' Hrun'].
    eexists _, _, _, (g v), new'. split; [exact Hp|]. split; [exact Hrun'|].
    cbn. by rewrite lookup_insert_eq.
  - pose proof (arithmetic_operator_expression
                  (ASTNode_Op2 R A1 A2 nm f children)) as Hop.
    cbn [arithmetic] in Hop. specialize (Hop Har).
    apply andb_true_iff in Har as [Har Hch].
    apply andb_true_iff in Har as [Har Hlen].
    apply andb_true_iff in Har as [Har Hf].
    apply andb_true_iff in Har as [Har HA2].
    apply andb_true_iff in Har as [HR HA1].
    destruct R; [|done]. destruct A1; [|done]. destruct A2; [|done].
    destruct f as [g|]; [|done].
    destruct children as [|child1 [|child2 [|]]]; try done.
    apply Forall_cons in IH as [IH1 IH]. apply Forall_cons in IH as [IH2 _].
    cbn in Hch. rewrite andb_true_r in Hch.
    apply andb_true_iff in Hch as [Hch1 Hch2].
    pose proof Hnum as Hnum0.
    cbn [leaf_symbols leaves_of_children] in Hnum.
    rewrite app_nil_r in Hnum.
    assert (Hnum1 : all_numeric (leaf_symbols child1) s).
    { intros p Hp'. apply Hnum. apply elem_of_app. by left. }
    assert (Hnum2 : all_numeric (leaf_symbols child2) s).
    { intros p Hp'. apply Hnum. apply elem_of_app. by right. }
    destruct (IH1 Hch1 s Hnum1)
      as (a1 & s1 & sym1 & v1 & new1 & Hc1 & Hrun1 & Ha1 & Hk1).
    pose proof (all_numeric_run _ _ _ _ _ _ Hnum2 Hrun1) as Hnum2'.
    destruct (IH2 Hch2 s1 Hnum2')
      as (a2 & s2 & sym2 & v2 & new2 & Hc2 & Hrun2 & Ha2 & Hk2).
    pose proof (expression_run_keeps _ _ _ _ _ _ _ Hrun2 Ha1) as Ha1'.
    destruct (delete_if_temporary_numeric _ _ _ _ Ha1' Hk1) as [s3 Hd1].
    assert (Ha2' : heap s3 !! a2 = Some sym2).
    { apply (delete_if_temporary_keeps _ _ _ _ _ _ _ Hd1 Ha1'); [|done|].
      - unfold IsScope. by rewrite Hk1.
      - intros Ht2 <-.
        pose proof (expression_run_temporary _ _ _ _ _ _
                      (all_numeric_named _ _ Hnum2') Hrun2 Ha2 Ht2).
        congruence. }
    destruct (delete_if_temporary_numeric _ _ _ _ Ha2' Hk2) as [s4 Hd2].
    assert (Hp : Process (ASTNode_Op2 T_double T_double T_double nm (Some g)
                            [child1; child2]) s
                 = Ok (Some (fresh_addr s4),
                       add_event (EvNew (fresh_addr s4))
                         (set_heap (<[fresh_addr s4 :=
                            temp_Symbol (Symbol_DoubleVar (g v1 v2))]>
                            (heap s4)) s4))).
    { cbn [Process]. rewrite (bind_Ok _ _ _ _ _ Hc1).
      rewrite (bind_Ok _ _ _ _ _ Hc2).
      rewrite (bind_Ok _ _ _ _ _ (deref_live _ _ _ Ha1')).
      rewrite (bind_Ok _ _ _ _ _ (deref_live _ _ _ Ha2)).
      cbn [As].
      rewrite (bind_Ok _ _ _ _ _ (lift_Ok _ _ _ (AsDouble_numeric _ _ Hk1))).
      rewrite (bind_Ok _ _ _ _ _ (lift_Ok _ _ _ (AsDouble_numeric _ _ Hk2))).
      cbn [bound]. unfold bind at 1, ret at 1.
      rewrite (bind_Ok _ _ _ _ _ Hd1). by rewrite (bind_Ok _ _ _ _ _ Hd2). }
    destruct (Process_operator_expression _ Hop _ _ _
                (all_numeric_named _ _ Hnum0) Hp) as [new' Hrun'].
    eexists _, _, _, (g v1 v2), new'. split; [exact Hp|].
    split; [exact Hrun'|]. cbn. by rewrite lookup_insert_eq.
Qed.

(** X15. Arithmetic over variables of type Value always evaluates: a tree
    of unary operators and of binary operators from numbers to a number,
    each with its function set, over leaves that are live variables of type
    Value, returns a Symbol that holds a number, whatever the conversions
    between strings and numbers do.  The heap afterwards is the heap before,
    with the result added when it is a new temporary. *)
Theorem arithmetic_evaluates n s :
  arithmetic n = true ->
  all_numeric (leaf_symbols n) s ->
  exists a s' sym v,
    Process n s = Ok (Some a, s') /\
    heap s' !! a = Some sym /\ kind sym = Symbol_DoubleVar v /\
    (heap s' = heap s \/ (heap s !! a = None /\ heap s' = <[a := sym]> (heap s))).
Proof.
  intros Har Hnum.
  destruct (arithmetic_run n Har s Hnum)
    as (a & s' & sym & v & new & Hp & [_ _ (? & [= <-] & Hres)] & Ha & Hk).
  exists a, s', sym, v. repeat split; try done. destruct new.
  - destruct Hres as (Hfree & out & Hheap & _). right. split; [done|].
    rewrite Hheap, lookup_insert_eq in Ha. congruence.
  - left. by destruct Hres.
Qed.

(** ** Write *)

Lemma append_assoc (a b c : string) : (a +:+ b) +:+ c = a +:+ b +:+ c.
Proof.
  induction a as [|x a IH]; [reflexivity|].
  change (String x ((a +:+ b) +:+ c) = String x (a +:+ b +:+ c)).
  by rewrite IH.
Qed.

Lemma append_nil_r (a : string) : a +:+ "" = a.
Proof.
  induction a as [|x a IH]; [reflexivity|].
  change (String x (a +:+ "") = String x a). by rewrite IH.
Qed.

Lemma concat_cons sep t ts :
  String.concat sep (t :: ts) =
    t +:+ foldr (fun t' acc => sep +:+ t' +:+ acc) "" ts.
Proof.
  revert t. induction ts as [|t' ts IH]; intros t.
  - cbn. by rewrite append_nil_r.
  - change (String.concat sep (t :: t' :: ts))
      with (t +:+ sep +:+ String.concat sep (t' :: ts)).
    by rewrite IH.
Qed.

Lemma Write_arguments_ext (W1 W2 : ASTNode -> M string) children :
  Forall (fun node => forall s, W1 node s = W2 node s) children ->
  forall i s, Write_arguments W1 i children s = Write_arguments W2 i children s.
Proof.
  induction 1 as [|node rest Hn _ IH]; intros i s; [done|].
  cbn [Write_arguments]. unfold bind. rewrite Hn.
  destruct (W2 node s) as [[out s1]|e]; [|done]. by rewrite IH.
Qed.

Lemma Write_arguments_joined (W : ASTNode -> M string) arguments texts s :
  Forall2 (fun node t => W node s = Ok (t, s)) arguments texts ->
  (forall i, Write_arguments W (S (S i)) arguments s =
     Ok (foldr (fun t acc => ", " +:+ t +:+ acc) "" texts, s)) /\
  Write_arguments W 1 arguments s = Ok (String.concat ", " texts, s).
Proof.
  intros Hall.
  assert (Hrest : forall i, Write_arguments W (S (S i)) arguments s =
     Ok (foldr (fun t acc => ", " +:+ t +:+ acc) "" texts, s)).
  { induction Hall as [|node t rest ts Hn _ IH]; intros i; [done|].
    cbn [Write_arguments]. unfold bind. by rewrite Hn, IH. }
  split; [done|].
  destruct Hall as [|node t rest ts Hn Hall]; [done|].
  cbn [Write_arguments]. unfold bind. rewrite Hn.
  assert (Write_arguments W 2 rest s =
     Ok (foldr (fun t acc => ", " +:+ t +:+ acc) "" ts, s)) as ->.
  { clear Hrest Hn. revert Hall. generalize 0.
    intros n Hall. revert n.
    induction Hall as [|node' t' rest' ts' Hn' _ IH]; intros n; [done|].
    cbn [Write_arguments]. unfold bind. by rewrite Hn', IH. }
  unfold ret. by rewrite concat_cons.
Qed.

(** X16. Only a Block indents: the text that a tree without a Block writes
    does not depend on the offset it is given. *)
Theorem Write_offset isstr lit n :
  no_block n = true ->
  forall offset offset' s,
    Write isstr lit n offset s = Write isstr lit n offset' s.
Proof.
  induction n as [a own|sp children IH|nm f children IH
                 |R A1 A2 nm f children IH|children IH|children IH
                 |nm f children IH] using ASTNode_children_ind;
    intros Hnb offset offset' s; cbn [no_block] in Hnb; try done.
  - destruct children as [|child rest]; [done|].
    apply Forall_cons in IH as [IHc _]. cbn in Hnb.
    apply andb_true_iff in Hnb as [Hc _].
    cbn [Write]. unfold bind. by rewrite (IHc Hc offset offset').
  - destruct children as [|child1 rest]; [done|].
    apply Forall_cons in IH as [IH1 IH]. cbn in Hnb.
    apply andb_true_iff in Hnb as [Hc1 Hnb].
    cbn [Write]. unfold bind. rewrite (IH1 Hc1 offset offset').
    destruct (Write isstr lit child1 offset' s) as [[out1 s1]|e]; [|done].
    destruct rest as [|child2 rest]; [done|].
    apply Forall_cons in IH as [IH2 _]. cbn in Hnb.
    apply andb_true_iff in Hnb as [Hc2 _].
    by rewrite (IH2 Hc2 offset offset').
  - destruct children as [|child1 rest]; [done|].
    apply Forall_cons in IH as [IH1 IH]. cbn in Hnb.
    apply andb_true_iff in Hnb as [Hc1 Hnb].
    cbn [Write]. unfold bind. rewrite (IH1 Hc1 offset offset').
    destruct (Write isstr lit child1 offset' s) as [[out1 s1]|e]; [|done].
    destruct rest as [|child2 rest]; [done|].
    apply Forall_cons in IH as [IH2 _]. cbn in Hnb.
    apply andb_true_iff in Hnb as [Hc2 _].
    by rewrite (IH2 Hc2 offset offset').
  - destruct children as [|callee arguments]; [done|].
    apply Forall_cons in IH as [IHc IH]. cbn in Hnb.
    apply andb_true_iff in Hnb as [Hc Hnb].
    cbn [Write]. unfold bind. rewrite (IHc Hc offset offset').
    destruct (Write isstr lit callee offset' s) as [[out s1]|e]; [|done].
    rewrite (Write_arguments_ext
               (fun node => Write isstr lit node offset)
               (fun node => Write isstr lit node offset')); [done|].
    clear -IH Hnb. induction IH as [|node rest Hn _ IHl]; [done|].
    cbn in Hnb. apply andb_true_iff in Hnb as [Hn' Hnb].
    constructor; [|by apply IHl]. intros s. by apply Hn.
  - destruct children as [|action arguments]; [done|].
    apply Forall_cons in IH as [IHc IH]. cbn in Hnb.
    apply andb_true_iff in Hnb as [Hc Hnb].
    cbn [Write]. unfold bind.
    rewrite (Write_arguments_ext
               (fun node => Write isstr lit node offset)
               (fun node => Write isstr lit node offset')).
    + destruct (Write_arguments _ 1 arguments s) as [[outs s1]|e]; [|done].
      by rewrite (IHc Hc offset offset').
    + clear -IH Hnb. induction IH as [|node rest Hn _ IHl]; [done|].
      cbn in Hnb. apply andb_true_iff in Hnb as [Hn' Hnb].
      constructor; [|by apply IHl]. intros s. by apply Hn.
Qed.

(** X17. The grouping of binary operators is not written: [x op1 (y op2 z)]
    and [(x op1 y) op2 z] send the same text to the stream, and fail alike,
    whatever the operators and the operands. *)
Theorem Write_Op2_grouping isstr lit
    R1 A1 B1 f1 R2 A2 B2 f2 R3 A3 B3 f3 R4 A4 B4 f4 op1 op2 x y z offset s :
  Write isstr lit
    (ASTNode_Op2 R1 A1 B1 op1 f1 [x; ASTNode_Op2 R2 A2 B2 op2 f2 [y; z]])
    offset s =
  Write isstr lit
    (ASTNode_Op2 R3 A3 B3 op2 f3 [ASTNode_Op2 R4 A4 B4 op1 f4 [x; y]; z])
    offset s.
Proof.
  cbn [Write]. unfold bind, ret.
  destruct (Write isstr lit x offset s) as [[ox sx]|e]; [|done].
  destruct (Write isstr lit y offset sx) as [[oy sy]|e]; [|done].
  destruct (Write isstr lit z offset sy) as [[oz sz]|e]; [|done].
  by rewrite !append_assoc.
Qed.

(** X18. The arguments of a Call and of an Event are written in their
    order, with [", "] between two of them and nothing after the last one:
    when the callee writes [c] and the arguments write [texts], the Call
    writes [c(t1, ..., tn)] and the Event [@name(t1, ..., tn) c]. *)
Theorem Write_arguments_separated isstr lit first arguments offset s c texts :
  Write isstr lit first offset s = Ok (c, s) ->
  Forall2 (fun node t => Write isstr lit node offset s = Ok (t, s))
    arguments texts ->
  Write isstr lit (ASTNode_Call (first :: arguments)) offset s =
    Ok (c +:+ "(" +:+ String.concat ", " texts +:+ ")", s) /\
  forall nm f,
    Write isstr lit (ASTNode_Event nm f (first :: arguments)) offset s =
      Ok ("@" +:+ nm +:+ "(" +:+ String.concat ", " texts +:+ ") " +:+ c, s).
Proof.
  intros Hc Hall.
  destruct (Write_arguments_joined
              (fun node => Write isstr lit node offset) _ _ _ Hall)
    as [_ Hargs].
  split; [|intros nm f]; cbn [Write]; unfold bind, ret.
  - by rewrite Hc, Hargs.
  - by rewrite Hargs, Hc.
Qed.

End Evaluation.

(** * The properties at concrete programs *)

Lemma no_temporary_scope_decide s :
  bool_decide (no_temporary_scope s) = true -> no_temporary_scope s.
Proof. apply bool_decide_eq_true_1. Qed.

(** C8 at the root scope and the name "x". *)
Lemma Add_then_LookupSymbol_witness :
  heap root_state !! 0 = Some root_scope /\
  kind root_scope = Symbol_Scope ∅ None false /\
  (∅ : gmap string addr) !! "x" = None /\
  exists p s',
    AddValueVar 0 "x" "" root_state = Ok (p, s') /\
    heap s' !! p =
      Some (new_Symbol (Symbol_DoubleVar 0%float) "" (Some 0) "x") /\
    (forall fuel scan, LookupSymbol (S fuel) 0 "x" scan s' = Ok (Some p, s')) /\
    GetSymbol 0 "x" s' = Ok (Some p, s') /\
    (forall ctor', Add 0 "x" ctor' s' = Err AssertionFailure).
Proof.
  split; [reflexivity|]. split; [reflexivity|]. split; [reflexivity|].
  apply (Add_then_LookupSymbol 0 "x"
           (new_Symbol (Symbol_DoubleVar 0%float) "" (Some 0))
           root_state root_scope ∅ None false); reflexivity.
Defined.

(** C9 at the root scope, which has no parent and does not hold "x". *)
Lemma LookupSymbol_resolves_witness :
  heap root_state !! 0 = Some root_scope /\
  kind root_scope = Symbol_Scope ∅ None false /\
  LookupSymbol 1 0 "x" true root_state = Ok (None, root_state).
Proof.
  split; [reflexivity|]. split; [reflexivity|].
  exact (proj1 LookupSymbol_resolves 0 0 "x" true root_state root_scope
           ∅ None false eq_refl eq_refl).
Defined.

(** C7 at the temporary of a literal. *)
Lemma Leaf_takes_ownership_witness :
  heap literal_state !! 1 = Some (temp_Symbol (Symbol_DoubleVar 2%float)) /\
  exists s',
    new_ASTNode_Leaf (Some 1) literal_state = Ok (ASTNode_Leaf 1 true, s') /\
    new_ASTNode_Leaf (Some 1) s' = Ok (ASTNode_Leaf 1 false, s') /\
    @Process strict_conversions (ASTNode_Leaf 1 true) s' = Ok (Some 1, s').
Proof.
  split; [reflexivity|].
  destruct (@Leaf_takes_ownership strict_conversions 1 literal_state
              (temp_Symbol (Symbol_DoubleVar 2%float)) eq_refl)
    as (s' & Hnew & _ & _ & Hagain & Hprocess & _).
  exists s'. split; [exact Hnew|]. split; [exact Hagain|]. apply Hprocess.
Defined.

(** C6 at the block of [2 + 2;]. *)
Lemma Block_Process_witness :
  exists s',
    @Process strict_conversions block_tree block_state = Ok (None, s') /\
    @Block_run strict_conversions
      [ASTNode_Math2 "+" (Some PrimFloat.add)
         [ASTNode_Leaf 1 true; ASTNode_Leaf 2 true]]
      block_state s'.
Proof.
  eexists. split; [vm_compute; reflexivity|].
  refine (proj2 (proj1 (proj1 (@Block_Process strict_conversions)
                          0 _ block_state None _) _)).
  vm_compute. reflexivity.
Defined.

(** C5 at [3 + 4]. *)
Lemma Op2_Process_witness :
  exists r s' out,
    @Process strict_conversions sum_tree sum_state = Ok (Some r, s') /\
    heap s' !! r = Some out /\ is_temporary out = true /\
    @As strict_conversions T_double out = Ok 7%float.
Proof.
  destruct (proj1 (@Op2_Process strict_conversions)
              T_double T_double T_double "+" PrimFloat.add
              (ASTNode_Leaf 1 true) (ASTNode_Leaf 2 true)
              sum_state 1 sum_state 2 sum_state
              (SetTemporary false (temp_Symbol (Symbol_DoubleVar 3%float)))
              (SetTemporary false (temp_Symbol (Symbol_DoubleVar 4%float)))
              3%float 4%float
              eq_refl eq_refl eq_refl eq_refl eq_refl eq_refl
              (fun _ => eq_refl))
    as (r & s' & out & Hp & Hout & Htemp & Hval & _).
  exists r, s', out. split; [exact Hp|]. split; [exact Hout|].
  split; [exact Htemp|exact Hval].
Defined.

(** C4 at [X = 9], X holding 5. *)
Lemma Assign_Process_witness :
  exists s',
    @Process strict_conversions
      (ASTNode_Assign [ASTNode_Leaf 1 false; ASTNode_Leaf 3 true])
      (built (@X_is_9 strict_conversions) root_state (0, no_tree)).2
      = Ok (Some 1, s') /\
    heap s' !! 1 =
      Some (new_Symbol (Symbol_DoubleVar 9%float) "" (Some 0) "X").
Proof.
  destruct (proj1 (@Assign_Process strict_conversions)
              (ASTNode_Leaf 1 false) (ASTNode_Leaf 3 true)
              (built (@X_is_9 strict_conversions) root_state (0, no_tree)).2
              1 _ 3 _
              (new_Symbol (Symbol_DoubleVar 5%float) "" (Some 0) "X")
              (SetTemporary false (temp_Symbol (Symbol_DoubleVar 9%float)))
              (new_Symbol (Symbol_DoubleVar 9%float) "" (Some 0) "X")
              eq_refl eq_refl eq_refl eq_refl eq_refl eq_refl)
    as (s' & Hp & Hl & _).
  exists s'. split; [exact Hp|exact Hl].
Defined.

(** C3 at an Event without arguments whose action cannot be processed. *)
Lemma Event_Process_witness :
  @Process strict_conversions (ASTNode_Call []) root_state
    = Err AssertionFailure /\
  exists s',
    @Process strict_conversions
      (ASTNode_Event "OnStart" (Some 0) [ASTNode_Call []]) root_state
      = Ok (None, s') /\
    heap s' = heap root_state /\
    log s' = [EvSetup 0 (ASTNode_Call []) []] /\
    setup_calls (log s') = 1.
Proof.
  split; [reflexivity|]. eexists. split; [reflexivity|].
  destruct (proj1 (proj1 (@Event_Process strict_conversions)
                     "OnStart" 0 (ASTNode_Call []) [] root_state None _)
              eq_refl)
    as (_ & args & s1 & Hrun & _).
  inversion Hrun. subst. repeat split.
Defined.

(** C10 at [MakeThing()(1 + 2)]. *)
Lemma Call_releases_arguments_only_witness :
  exists fn s1 args s2 s3 result s',
    @Process strict_conversions call_tree call_state = Ok (result, s') /\
    @Process strict_conversions (ASTNode_Call [ASTNode_Leaf 1 false]) call_state
      = Ok (fn, s1) /\
    @Symbol_Call strict_conversions fn args s2 = Ok (result, s3) /\
    for_each delete_if_temporary args s3 = Ok (tt, s').
Proof.
  destruct (proj1 (@Call_releases_arguments_only strict_conversions)
              (ASTNode_Call [ASTNode_Leaf 1 false])
              [ASTNode_Math2 "+" (Some PrimFloat.add)
                 [ASTNode_Leaf 2 true; ASTNode_Leaf 3 true]]
              call_state _ _ eq_refl)
    as (fn & s1 & args & s2 & s3 & a & fsym & Hc & _ & Hcall & _ & _ & Hrel & _).
  exists fn, s1, args, s2, s3. eexists _, _.
  split; [reflexivity|]. split; [exact Hc|]. split; [exact Hcall|exact Hrel].
Defined.

(** C2 (as amended) at [@OnUpdate(1 + 2) DoThing();]: the temporary of
    [1 + 2] is accounted for as handed to the setup closure. *)
Lemma ownership_discipline_witness :
  named_callees event_sum_tree = true /\
  no_temporary_scope event_sum_state /\
  exists s',
    @Process strict_conversions event_sum_tree event_sum_state = Ok (None, s') /\
    (forall p sym, heap event_sum_state !! p = Some sym ->
       is_temporary sym = false ->
       exists sym', heap s' !! p = Some sym' /\ is_temporary sym' = false) /\
    (forall p sym', heap s' !! p = Some sym' -> is_temporary sym' = true ->
       (exists sym, heap event_sum_state !! p = Some sym /\
                    is_temporary sym = true) \/
       None = Some p \/
       exists k, log s' = log event_sum_state ++ k /\ handed_over k p) /\
    no_temporary_scope s'.
Proof.
  assert (Hs : no_temporary_scope event_sum_state).
  { apply no_temporary_scope_decide. vm_compute. reflexivity. }
  split; [reflexivity|]. split; [exact Hs|].
  eexists. split; [vm_compute; reflexivity|].
  apply (@ownership_discipline strict_conversions event_sum_tree
           event_sum_state None _ eq_refl Hs).
  vm_compute. reflexivity.
Defined.

(** C2, the claim as stated, at [@OnUpdate(1 + 2) DoThing();]: the Event
    node consumes the result of [1 + 2], a temporary that was not live before
    [Process]; after [Process] the temporary is still live, the Event has
    returned the null pointer and not that Symbol, and the trace holds the
    allocation and no deallocation: the consuming node neither released the
    temporary nor forwarded it as its return value. *)
Lemma Event_keeps_temporary_argument :
  exists s' t tsym action,
    @Process strict_conversions event_sum_tree event_sum_state = Ok (None, s') /\
    log s' = log event_sum_state ++ [EvNew t; EvSetup 0 action [Some t]] /\
    heap event_sum_state !! t = None /\
    heap s' !! t = Some tsym /\ is_temporary tsym = true /\
    deallocations (log s') = 0.
Proof.
  eexists _, _, _, _. split; [vm_compute; reflexivity|].
  split; [vm_compute; reflexivity|]. split; [vm_compute; reflexivity|].
  split; [vm_compute; reflexivity|]. split; reflexivity.
Qed.

(** X2 at the innermost of three nested scopes and the name "x", which the
    root declares. *)
Lemma LookupSymbol_nearest_witness :
  scope_path nested_state 2 [∅; {["S1" := 2]}; <["x" := 3]> {["S2" := 1]}] /\
  LookupSymbol 3 2 "x" true nested_state = Ok (Some 3, nested_state).
Proof.
  assert (Hpath : scope_path nested_state 2
                    [∅; {["S1" := 2]}; <["x" := 3]> {["S2" := 1]}]).
  { eapply path_nested; [reflexivity..|].
    eapply path_nested; [reflexivity..|].
    eapply path_root; reflexivity. }
  split; [exact Hpath|].
  exact (LookupSymbol_nearest _ _ _ Hpath 3 "x" (le_n 3)).
Defined.

(** X3 at the declaration of "y" in the root of the nested scopes: the
    innermost scope still resolves "x". *)
Lemma Add_keeps_other_names_witness :
  exists p s',
    AddValueVar 0 "y" "" nested_state = Ok (p, s') /\
    heap nested_state !! p = None /\
    LookupSymbol 3 2 "x" true s' = Ok (Some 3, s').
Proof.
  eexists _, _. split; [reflexivity|].
  destruct (Add_keeps_other_names 0 "y"
              (new_Symbol (Symbol_DoubleVar 0%float) "" (Some 0))
              nested_state _ _ eq_refl) as (Hfree & _ & _ & Hlook).
  split; [exact Hfree|]. apply Hlook; [discriminate|reflexivity].
Defined.

(** X4 at the declaration of a builtin function in the root scope. *)
Lemma AddBuiltin_declares_witness :
  heap root_state !! 0 = Some root_scope /\
  kind root_scope = Symbol_Scope ∅ None false /\
  exists p s',
    AddBuiltinFunction 0 "DoThing" DoThing "" root_state = Ok (p, s') /\
    GetSymbol 0 "DoThing" s' = Ok (Some p, s') /\
    is_builtin <$> heap s' !! p = Some true.
Proof.
  split; [reflexivity|]. split; [reflexivity|].
  destruct (proj1 (AddBuiltin_declares 0 "DoThing"
                     (new_Symbol (Symbol_Function DoThing) "" (Some 0))
                     root_state root_scope ∅ None false eq_refl eq_refl)
              eq_refl)
    as (p & s0 & s' & _ & Hb & _ & Hl & Hg).
  exists p, s'. split; [exact Hb|]. split; [exact Hg|].
  rewrite Hl. reflexivity.
Defined.

(** X5 at a scope declared inside the innermost of the nested scopes. *)
Lemma AddScope_nested_witness :
  exists c s',
    AddScope 2 "S0" "" None false nested_state = Ok (c, s') /\
    LookupSymbol 4 c "x" true s' = Ok (Some 3, s') /\
    LookupSymbol 4 c "x" false s' = Ok (None, s').
Proof.
  eexists _, _. split; [reflexivity|].
  destruct (AddScope_nested 2 "S0" "" None false nested_state _ _ eq_refl)
    as (_ & Hscan & Hnoscan & _).
  split; [|apply Hnoscan]. rewrite Hscan. reflexivity.
Defined.




(** X9 at a binary operator with one child. *)
Lemma Process_arity_witness :
  @Process strict_conversions
    (ASTNode_Math2 "+" (Some PrimFloat.add) [ASTNode_Leaf 1 true]) sum_state
    = Err AssertionFailure.
Proof.
  apply (proj1 (proj2 (@Process_arity strict_conversions))). cbn. lia.
Defined.

(** X10 at the tree of [3 + 4], whose two leaves own their literals. *)
Lemma Delete_node_releases_owned_witness :
  owned_symbols sum_tree = [1; 2] /\
  exists s',
    Delete_node sum_tree sum_state = Ok (tt, s') /\
    heap s' !! 1 = None /\ heap s' !! 2 = None /\
    heap s' !! 0 = Some root_scope /\
    log s' = log sum_state ++ [EvDelete 1; EvDelete 2].
Proof.
  split; [reflexivity|].
  destruct (Delete_node_releases_owned sum_tree sum_state)
    as (s' & Hd & Hgone & Hkept & _ & Hlog).
  - change (NoDup [1; 2]). apply NoDup_cons. split.
    + intros Hin. apply list_elem_of_singleton in Hin. discriminate.
    + apply NoDup_singleton.
  - change (forall a, a ∈ [1; 2] ->
              exists sym, heap sum_state !! a = Some sym /\ IsScope sym = false).
    intros a Ha. apply elem_of_cons in Ha as [->|Ha].
    + eexists. split; reflexivity.
    + apply list_elem_of_singleton in Ha as ->. eexists. split; reflexivity.
  - exists s'. split; [exact Hd|].
    split; [apply Hgone; change (1 ∈ [1; 2]); apply elem_of_cons; by left|].
    split; [apply Hgone; change (2 ∈ [1; 2]); apply elem_of_cons; right;
            by apply list_elem_of_singleton|].
    split; [|exact Hlog].
    rewrite Hkept; [reflexivity|]. change (0 ∉ [1; 2]).
    intros Hin. apply elem_of_cons in Hin as [Hin|Hin]; [discriminate|].
    apply list_elem_of_singleton in Hin. discriminate.
Defined.

(** X11 at the temporary of a literal. *)
Lemma shared_Symbol_deleted_once_witness :
  heap literal_state !! 1 = Some (temp_Symbol (Symbol_DoubleVar 2%float)) /\
  exists leaf1 leaf2 s1,
    new_ASTNode_Leaf (Some 1) literal_state = Ok (leaf1, s1) /\
    new_ASTNode_Leaf (Some 1) s1 = Ok (leaf2, s1) /\
    owned_symbols (ASTNode_Assign [leaf1; leaf2]) = [1] /\
    Delete_node (ASTNode_Assign [leaf1; leaf2]) s1 = Ok (tt, released [1] s1).
Proof.
  split; [reflexivity|].
  destruct (shared_Symbol_deleted_once 1 literal_state
              (temp_Symbol (Symbol_DoubleVar 2%float)) eq_refl eq_refl)
    as (leaf1 & leaf2 & s1 & H1 & H2 & Hown & Hdel & _).
  exists leaf1, leaf2, s1. split; [exact H1|]. split; [exact H2|].
  split; [exact Hown|exact Hdel].
Defined.

(** X12 at [3 + 4], a node with a value, and at the block of [2 + 2;], a
    node without one. *)
Lemma HasValue_Process_witness :
  HasValue sum_tree = true /\ HasValue block_tree = false /\
  exists r s' r' s'',
    @Process strict_conversions sum_tree sum_state = Ok (r, s') /\
    @Process strict_conversions block_tree block_state = Ok (r', s'') /\
    (exists a, r = Some a) /\ r' = None.
Proof.
  split; [reflexivity|]. split; [reflexivity|].
  eexists _, _, _, _. split; [vm_compute; reflexivity|].
  split; [vm_compute; reflexivity|]. split.
  - exact (proj2 (@HasValue_Process strict_conversions sum_tree sum_state
                    _ _ eq_refl) eq_refl).
  - exact (proj1 (@HasValue_Process strict_conversions block_tree block_state
                    _ _ eq_refl) eq_refl).
Defined.

(** X13 at [3 + 4]: the node is numeric and not a string, and what it
    returns holds a number. *)
Lemma operator_predicates_Process_witness :
  exists a s' out,
    @Process strict_conversions sum_tree sum_state = Ok (Some a, s') /\
    heap s' !! a = Some out /\
    IsNumeric (fun _ => false) (fun _ => false) sum_tree sum_state
      = Ok (true, sum_state) /\
    IsString (fun _ => false) (fun _ => false) sum_tree sum_state
      = Ok (false, sum_state) /\
    exists v, kind out = Symbol_DoubleVar v.
Proof.
  destruct (proj1 (@operator_predicates_Process strict_conversions
                     (fun _ => false) (fun _ => false)
                     (fun _ => false) (fun _ => false))
              T_double T_double T_double "+" (Some PrimFloat.add)
              [ASTNode_Leaf 1 true; ASTNode_Leaf 2 true]
              sum_state _ _ sum_state eq_refl)
    as (a & out & b & [= <-] & Hout & Hnum & Hstr & Hb & _).
  eexists _, _, out. split; [vm_compute; reflexivity|]. split; [exact Hout|].
  injection Hnum as <-. split; [reflexivity|]. split; [reflexivity|].
  by apply Hb.
Defined.

(** X14 at the block of [2 + 2;]. *)
Lemma Block_of_expressions_witness :
  all_named [1; 2] block_state /\
  exists s',
    @Process strict_conversions block_tree block_state = Ok (None, s') /\
    heap s' = heap block_state /\
    exists k, log s' = log block_state ++ k /\
              allocations k = deallocations k.
Proof.
  assert (Hnamed : all_named [1; 2] block_state).
  { intros p Hp. apply elem_of_cons in Hp as [->|Hp].
    - eexists. split; reflexivity.
    - apply list_elem_of_singleton in Hp as ->. eexists. split; reflexivity. }
  split; [exact Hnamed|].
  assert (exists s', @Process strict_conversions block_tree block_state
                     = Ok (None, s')) as [s' Hp]
    by (eexists; vm_compute; reflexivity).
  destruct (@Block_of_expressions strict_conversions 0
              [ASTNode_Math2 "+" (Some PrimFloat.add)
                 [ASTNode_Leaf 1 true; ASTNode_Leaf 2 true]]
              block_state _ _ eq_refl Hnamed Hp)
    as (_ & Hheap & _ & k & Hlog & Hbal & _).
  exists s'. split; [exact Hp|]. split; [exact Hheap|].
  exists k. split; [exact Hlog|exact Hbal].
Defined.

(** X15 at [3 + 4]. *)
Lemma arithmetic_evaluates_witness :
  arithmetic sum_tree = true /\ all_numeric [1; 2] sum_state /\
  exists a s' sym v,
    @Process strict_conversions sum_tree sum_state = Ok (Some a, s') /\
    heap s' !! a = Some sym /\ kind sym = Symbol_DoubleVar v.
Proof.
  assert (Hnum : all_numeric [1; 2] sum_state).
  { intros p Hp. apply elem_of_cons in Hp as [->|Hp].
    - eexists _, _. repeat split; reflexivity.
    - apply list_elem_of_singleton in Hp as ->.
      eexists _, _. repeat split; reflexivity. }
  split; [reflexivity|]. split; [exact Hnum|].
  destruct (@arithmetic_evaluates strict_conversions sum_tree sum_state
              eq_refl Hnum) as (a & s' & sym & v & Hp & Ha & Hk & _).
  exists a, s', sym, v. split; [exact Hp|]. split; [exact Ha|exact Hk].
Defined.

(** X16 at [-a], written with an offset of four spaces. *)
Lemma Write_offset_witness :
  no_block (ASTNode_Math1 "-" None [ASTNode_Leaf 2 false]) = true /\
  @Write strict_conversions (fun _ => false) id
    (ASTNode_Math1 "-" None [ASTNode_Leaf 2 false]) "    " names_state
    = Ok ("-a", names_state).
Proof.
  split; [reflexivity|].
  exact (eq_trans
           (@Write_offset strict_conversions (fun _ => false) id
              (ASTNode_Math1 "-" None [ASTNode_Leaf 2 false]) eq_refl
              "    " "" names_state)
           eq_refl).
Defined.

(** X18 at [f(a, b)] and at [@OnUpdate(a, b) f]. *)
Lemma Write_arguments_separated_witness :
  @Write strict_conversions (fun _ => false) id
    (ASTNode_Call [ASTNode_Leaf 1 false; ASTNode_Leaf 2 false;
                   ASTNode_Leaf 3 false]) "" names_state
    = Ok ("f(a, b)", names_state) /\
  @Write strict_conversions (fun _ => false) id
    (ASTNode_Event "OnUpdate" None
       [ASTNode_Leaf 1 false; ASTNode_Leaf 2 false; ASTNode_Leaf 3 false])
    "" names_state
    = Ok ("@OnUpdate(a, b) f", names_state).
Proof.
  destruct (@Write_arguments_separated strict_conversions (fun _ => false) id
              (ASTNode_Leaf 1 false)
              [ASTNode_Leaf 2 false; ASTNode_Leaf 3 false] "" names_state
              "f" ["a"; "b"] eq_refl) as [Hcall Hevent].
  - repeat constructor.
  - split; [exact Hcall|exact (Hevent "OnUpdate" None)].
Defined.
